(** * app.js: quote widget, task list and notes editor

    A shallow embedding of [src/app.js].  The script is asynchronous
    JavaScript that reads and writes the DOM, keeps one module-level
    variable ([lastSavedNotes]), logs to the console and talks to two REST
    back ends through axios.  It is modelled as a state-and-exception monad
    over a [World]:

    - the document: the elements the script looks up by id (or class), each
      present or absent, with the one property the script touches;
    - the module variable [lastSavedNotes];
    - what was passed to [console.error], oldest first;
    - the HTTP requests issued, oldest first;
    - the replies the network is going to give, next one first.  A request
      issued when no reply is left never settles: the [await] never resumes.

    Named elements are taken to be outside the [.task-list] container, and
    the set of named elements does not change while the script runs (the
    script itself creates and removes nodes only inside that container), so
    a lookup by id gives the same answer at the start of a function and at
    the point of use.  The document holds what each element reports: the
    text assigned to [textContent] as it is, the value assigned to the
    textarea with its line breaks as LF.  Listeners are the functions [checkbox_change], [notes_input] and
    [save_notes_click]; [toggle] and [edit_notes] are the user's click and
    typing, which change the control and then dispatch the event.  The
    wiring functions and [init] only attach listeners and run the three
    loads in turn. *)

From Stdlib Require Import List String Ascii ZArith Bool Lia.
From Stdlib Require Import DecimalString.
Import ListNotations.
Open Scope string_scope.
Open Scope list_scope.

#[local] Set Warnings "-register-all".

(* ================================================================== *)
(** ** JavaScript values *)
(* ================================================================== *)

(** What the script can meet: the values of a parsed JSON body, [undefined]
    and the error objects that are thrown and logged.  Numbers are the
    integer-valued ones (task ids, the 0/1 [finished] flag): [JNum n] is
    the number the integer literal [n] denotes, so a literal that no double
    holds stands for the double nearest to it.  An object is its list of
    own properties, keys distinct. *)
Inductive JsVal : Type :=
| JUndefined
| JNull
| JBool (b : bool)
| JNum (n : Z)
| JStr (s : string)
| JArr (items : list JsVal)
| JObj (props : list (string * JsVal))
| JError (name message : string).

Definition nullish (v : JsVal) : bool :=
  match v with
  | JUndefined | JNull => true
  | _ => false
  end.

(** [a ?? b] *)
Definition coalesce (a b : JsVal) : JsVal :=
  if nullish a then b else a.

Infix "??" := coalesce (at level 45, right associativity).

Fixpoint lookup_prop (k : string) (props : list (string * JsVal)) : JsVal :=
  match props with
  | [] => JUndefined
  | (k', v) :: rest => if String.eqb k k' then v else lookup_prop k rest
  end.

Definition type_error (message : string) : JsVal := JError "TypeError" message.

(** [v.k], a value ([inl]) or the TypeError thrown ([inr]) when [v] is
    [null] or [undefined].  The script reads only [quote], [text],
    [author], [name], [finished], [task], [id] and [notes]: no boolean,
    number, string or array has any of them, and an error object has
    [name]. *)
Definition get_prop (v : JsVal) (k : string) : JsVal + JsVal :=
  match v with
  | JUndefined =>
      inr (type_error ("Cannot read properties of undefined (reading '" ++ k ++ "')"))
  | JNull =>
      inr (type_error ("Cannot read properties of null (reading '" ++ k ++ "')"))
  | JObj props => inl (lookup_prop k props)
  | JError name message =>
      inl (if String.eqb k "name" then JStr name
           else if String.eqb k "message" then JStr message
           else JUndefined)
  | _ => inl JUndefined
  end.

(** [v?.k] *)
Definition get_prop_opt (v : JsVal) (k : string) : JsVal :=
  match get_prop v k with
  | inl x => x
  | inr _ => JUndefined
  end.

(** [Number::toString] on the number an integer literal denotes: the
    literal is rounded to the nearest double, and the double is printed
    with the fewest digits that still round to it, in exponent form from
    22 digits on. *)
Module JsNumber.

#[local] Open Scope Z_scope.

(** Decimal digits of a natural number. *)
Definition decimal (n : Z) : string :=
  NilZero.string_of_int (Z.to_int n).

(** The double nearest to the integer [n >= 1], ties to the even
    significand; [None] when that is Infinity. *)
Definition to_double (n : Z) : option Z :=
  let b := Z.log2 n in
  if b <? 53 then Some n
  else
    let e := b - 52 in
    let q := Z.shiftr n e in
    let r := n - Z.shiftl q e in
    let half := Z.shiftl 1 (e - 1) in
    let q' := if (half <? r) || ((r =? half) && Z.odd q) then q + 1 else q in
    let v := Z.shiftl q' e in
    if Z.shiftl 1 1024 <=? v then None else Some v.

(** Twice the bounds of the reals that round to the double [v >= 2^53],
    and whether the bounds themselves do (the significand is even). *)
Definition rounding_interval (v : Z) : Z * Z * bool :=
  let e := Z.log2 v - 52 in
  let m := Z.shiftr v e in
  let up := Z.shiftl 1 e in
  let down := if m =? Z.shiftl 1 52 then Z.shiftl 1 (e - 1) else up in
  (2 * v - down, 2 * v + up, Z.even m).

Definition inside (i : Z * Z * bool) (x : Z) : bool :=
  let '(lo2, hi2, closed) := i in
  if closed then (lo2 <=? 2 * x) && (2 * x <=? hi2)
  else (lo2 <? 2 * x) && (2 * x <? hi2).

(** The multiple [t * p] of [p] nearest to [v] among those that round to
    [v] (the even [t] on a tie), as [t]. *)
Definition nearest_multiple (i : Z * Z * bool) (v p : Z) : option Z :=
  let t := v / p in
  match inside i (t * p), inside i ((t + 1) * p) with
  | true, true =>
      let below := v - t * p in
      let above := (t + 1) * p - v in
      if below <? above then Some t
      else if above <? below then Some (t + 1)
      else if Z.even t then Some t else Some (t + 1)
  | true, false => Some t
  | false, true => Some (t + 1)
  | false, false => None
  end.

(** The fewest digits: the largest [j] with a multiple of [10^j] that
    rounds to [v], and the nearest such multiple [t * 10^j]. *)
Fixpoint shortest (fuel : nat) (i : Z * Z * bool) (v j t : Z) : Z * Z :=
  match fuel with
  | O => (t, j)
  | S fuel' =>
      match nearest_multiple i v (10 ^ (j + 1)) with
      | Some t' => shortest fuel' i v (j + 1) t'
      | None => (t, j)
      end
  end.

Fixpoint zeros (j : nat) : string :=
  match j with
  | O => ""
  | S j' => String "0" (zeros j')
  end.

(** Digits [t] followed by [j] zeros, in exponent form from 22 digits on. *)
Definition show (t j : Z) : string :=
  let ds := decimal t in
  let n := Z.of_nat (String.length ds) + j in
  if n <=? 21 then (ds ++ zeros (Z.to_nat j))%string
  else
    match ds with
    | String d EmptyString => (String d "e+" ++ decimal (n - 1))%string
    | String d rest => (String d ("." ++ rest) ++ "e+" ++ decimal (n - 1))%string
    | EmptyString => ""
    end.

Definition of_positive (n : Z) : string :=
  match to_double n with
  | None => "Infinity"
  | Some v =>
      if Z.log2 v <? 53 then decimal v
      else let '(t, j) := shortest 400 (rounding_interval v) v 0 v in show t j
  end.

Definition toString (n : Z) : string :=
  if n =? 0 then "0"
  else if n <? 0 then ("-" ++ of_positive (- n))%string
  else of_positive n.

End JsNumber.

Definition string_of_Z (n : Z) : string := JsNumber.toString n.

Fixpoint has_own (k : string) (props : list (string * JsVal)) : bool :=
  match props with
  | [] => false
  | (k', _) :: rest => String.eqb k k' || has_own k rest
  end.

Definition cannot_convert : JsVal :=
  type_error "Cannot convert object to primitive value".

(** The string conversion a template literal or a DOM string property
    applies: the string ([inl]) or the TypeError thrown ([inr]).  An array
    joins its elements with commas, [null] and [undefined] elements as
    empty strings.  An object prints as [[object Object]], unless it has an
    own [toString] property: a JSON value is not callable, and the
    conversion then finds no method that gives a primitive. *)
Fixpoint ToString (v : JsVal) : string + JsVal :=
  match v with
  | JUndefined => inl "undefined"
  | JNull => inl "null"
  | JBool true => inl "true"
  | JBool false => inl "false"
  | JNum n => inl (string_of_Z n)
  | JStr s => inl s
  | JArr items =>
      (fix join (l : list JsVal) : string + JsVal :=
         match l with
         | [] => inl ""
         | x :: rest =>
             match (if nullish x then inl "" else ToString x) with
             | inr e => inr e
             | inl s =>
                 match rest with
                 | [] => inl s
                 | _ :: _ =>
                     match join rest with
                     | inr e => inr e
                     | inl s' => inl (s ++ "," ++ s')%string
                     end
                 end
             end
         end) items
  | JObj props =>
      if has_own "toString" props then inr cannot_convert
      else inl "[object Object]"
  | JError name message =>
      inl (if String.eqb name "" then message
           else if String.eqb message "" then name
           else name ++ ": " ++ message)%string
  end.

(** [v === n] for a number literal [n]. *)
Definition strict_eq_num (v : JsVal) (n : Z) : bool :=
  match v with
  | JNum m => Z.eqb m n
  | _ => false
  end.

(** [s === v] where the left operand is known to be a string. *)
Definition strict_eq_str (s : string) (v : JsVal) : bool :=
  match v with
  | JStr s' => String.eqb s s'
  | _ => false
  end.

(** Assigning [v] to [textContent]: [null] and [undefined] clear the
    node, anything else is converted to a string. *)
Definition textContent_of (v : JsVal) : string + JsVal :=
  if nullish v then inl "" else ToString v.

(** Assigning [v] to the [value] of a textarea or input: [null] clears it,
    anything else is converted to a string ([textarea_value] below is what
    a textarea then reports). *)
Definition value_of (v : JsVal) : string + JsVal :=
  match v with
  | JNull => inl ""
  | _ => ToString v
  end.

(** What a textarea reports as its [value] after [s] was assigned to it:
    every CR LF pair and every other CR has become LF. *)
Fixpoint textarea_value (s : string) : string :=
  match s with
  | EmptyString => EmptyString
  | String c rest =>
      if Nat.eqb (nat_of_ascii c) 13 then
        match rest with
        | String c' rest' =>
            if Nat.eqb (nat_of_ascii c') 10
            then String (ascii_of_nat 10) (textarea_value rest')
            else String (ascii_of_nat 10) (textarea_value rest)
        | EmptyString => String (ascii_of_nat 10) EmptyString
        end
      else String c (textarea_value rest)
  end.

(* ================================================================== *)
(** ** Strings: [String.prototype.trim] *)
(* ================================================================== *)

(** DOM strings are kept as their UTF-8 bytes.  [trim] removes the
    ECMAScript WhiteSpace and LineTerminator code points from both ends. *)
Module Trim.

#[local] Open Scope nat_scope.

Definition is_ws1 (x : nat) : bool :=
  (x =? 9) || (x =? 10) || (x =? 11) || (x =? 12) || (x =? 13) || (x =? 32).

(** U+00A0 *)
Definition is_ws2 (x y : nat) : bool :=
  (x =? 194) && (y =? 160).

(** U+1680, U+2000..U+200A, U+2028, U+2029, U+202F, U+205F, U+3000,
    U+FEFF *)
Definition is_ws3 (x y z : nat) : bool :=
  ((x =? 225) && (y =? 154) && (z =? 128))
  || ((x =? 226) && (y =? 128)
      && (((128 <=? z) && (z <=? 138)) || (z =? 168) || (z =? 169) || (z =? 175)))
  || ((x =? 226) && (y =? 129) && (z =? 159))
  || ((x =? 227) && (y =? 128) && (z =? 128))
  || ((x =? 239) && (y =? 187) && (z =? 191)).

(** Bytes taken by a white-space code point at the head of [l]; 0 when
    [l] does not start with one.  [back] reads [l] as a reversed string. *)
Definition ws_len (back : bool) (l : list ascii) : nat :=
  match l with
  | a :: r =>
      let x := nat_of_ascii a in
      if is_ws1 x then 1
      else match r with
           | b :: r' =>
               let y := nat_of_ascii b in
               if (if back then is_ws2 y x else is_ws2 x y) then 2
               else match r' with
                    | c :: _ =>
                        let z := nat_of_ascii c in
                        if (if back then is_ws3 z y x else is_ws3 x y z)
                        then 3 else 0
                    | [] => 0
                    end
           | [] => 0
           end
  | [] => 0
  end.

(** Drop leading white space; [skip] bytes of the current code point are
    still to be dropped. *)
Fixpoint drop_ws (back : bool) (skip : nat) (l : list ascii) : list ascii :=
  match l with
  | [] => []
  | _ :: r =>
      match skip with
      | S k => drop_ws back k r
      | O =>
          match ws_len back l with
          | O => l
          | S k => drop_ws back k r
          end
      end
  end.

Definition trimStart (s : string) : string :=
  string_of_list_ascii (drop_ws false 0 (list_ascii_of_string s)).

Definition trimEnd (s : string) : string :=
  string_of_list_ascii
    (rev (drop_ws true 0 (rev (list_ascii_of_string s)))).

Definition trim (s : string) : string := trimEnd (trimStart s).

End Trim.

Definition trim := Trim.trim.

(* ================================================================== *)
(** ** The world the script runs in *)
(* ================================================================== *)

(** One rendered [<li class="task-item">]: the checkbox state, the label
    text and the task object [t] the checkbox's change listener closes
    over. *)
Record Row : Type := mkRow {
  checked : bool;
  label : string;
  task : JsVal
}.

(** The elements the script binds to; [None] when the page lacks one. *)
Record Document : Type := mkDocument {
  quote_text : option string;      (* #quote-text, textContent *)
  quote_author : option string;    (* #quote-author, textContent *)
  task_list : option (list Row);   (* .task-list, its children *)
  new_task : option string;        (* #new-task, value *)
  add_task_btn : option bool;      (* #add-task-btn, disabled *)
  notes_text : option string;      (* #notes-text, value *)
  save_notes_btn : option bool     (* #save-notes-btn, disabled *)
}.

Inductive Method : Type := GET | POST | PATCH | PUT.

(** An axios call: method, URL and the config (for GET) or body. *)
Record Request : Type := mkRequest {
  method : Method;
  url : string;
  payload : JsVal
}.

(** How the promise of an axios call settles. *)
Inductive Reply : Type :=
| Resolve (data : JsVal)
| Reject (error : JsVal).

Record World : Type := mkWorld {
  document : Document;
  lastSavedNotes : JsVal;
  console : list JsVal;
  sent : list Request;
  network : list Reply
}.

Definition with_document (f : Document -> Document) (w : World) : World :=
  mkWorld (f (document w)) (lastSavedNotes w) (console w) (sent w) (network w).

Definition with_lastSavedNotes (v : JsVal) (w : World) : World :=
  mkWorld (document w) v (console w) (sent w) (network w).

Definition with_console (c : list JsVal) (w : World) : World :=
  mkWorld (document w) (lastSavedNotes w) c (sent w) (network w).

Definition with_sent (l : list Request) (w : World) : World :=
  mkWorld (document w) (lastSavedNotes w) (console w) l (network w).

Definition with_network (l : list Reply) (w : World) : World :=
  mkWorld (document w) (lastSavedNotes w) (console w) (sent w) l.

Definition with_quote_text (s : string) (d : Document) : Document :=
  mkDocument (Some s) (quote_author d) (task_list d) (new_task d)
    (add_task_btn d) (notes_text d) (save_notes_btn d).

Definition with_quote_author (s : string) (d : Document) : Document :=
  mkDocument (quote_text d) (Some s) (task_list d) (new_task d)
    (add_task_btn d) (notes_text d) (save_notes_btn d).

Definition with_task_list (rows : list Row) (d : Document) : Document :=
  mkDocument (quote_text d) (quote_author d) (Some rows) (new_task d)
    (add_task_btn d) (notes_text d) (save_notes_btn d).

Definition with_new_task (s : string) (d : Document) : Document :=
  mkDocument (quote_text d) (quote_author d) (task_list d) (Some s)
    (add_task_btn d) (notes_text d) (save_notes_btn d).

Definition with_add_task_btn (disabled : bool) (d : Document) : Document :=
  mkDocument (quote_text d) (quote_author d) (task_list d) (new_task d)
    (Some disabled) (notes_text d) (save_notes_btn d).

Definition with_notes_text (s : string) (d : Document) : Document :=
  mkDocument (quote_text d) (quote_author d) (task_list d) (new_task d)
    (add_task_btn d) (Some s) (save_notes_btn d).

Definition with_save_notes_btn (disabled : bool) (d : Document) : Document :=
  mkDocument (quote_text d) (quote_author d) (task_list d) (new_task d)
    (add_task_btn d) (notes_text d) (Some disabled).

(* ================================================================== *)
(** ** Computations: state, exceptions, promises that never settle *)
(* ================================================================== *)

(** How a (possibly async) piece of code ends: normally, by throwing (an
    async function then returns a rejected promise), or not at all because
    it awaits a promise that never settles. *)
Inductive Completion (A : Type) : Type :=
| Normal (a : A)
| Throw (e : JsVal)
| Pending.

Arguments Normal {A} a.
Arguments Throw {A} e.
Arguments Pending {A}.

Definition Js (A : Type) : Type := World -> Completion A * World.

Definition ret {A} (a : A) : Js A := fun w => (Normal a, w).

Definition throw {A} (e : JsVal) : Js A := fun w => (Throw e, w).

Definition bind {A B} (m : Js A) (k : A -> Js B) : Js B :=
  fun w =>
    match m w with
    | (Normal a, w') => k a w'
    | (Throw e, w') => (Throw e, w')
    | (Pending, w') => (Pending, w')
    end.

Notation "x <- m ;; k" := (bind m (fun x => k))
  (at level 61, m at next level, right associativity).
Notation "m ;; k" := (bind m (fun _ => k))
  (at level 61, right associativity).

(** [try { body } catch (error) { handler error }] *)
Definition try_catch {A} (body : Js A) (handler : JsVal -> Js A) : Js A :=
  fun w =>
    match body w with
    | (Throw e, w') => handler e w'
    | r => r
    end.

(** [try { body } finally { cleanup }]: the cleanup runs however the body
    completes, and the body's completion stands unless the cleanup itself
    throws.  It does not run while the body is still waiting. *)
Definition try_finally {A} (body : Js A) (cleanup : Js unit) : Js A :=
  fun w =>
    match body w with
    | (Pending, w') => (Pending, w')
    | (c, w') =>
        match cleanup w' with
        | (Normal _, w'') => (c, w'')
        | (Throw e, w'') => (Throw e, w'')
        | (Pending, w'') => (Pending, w'')
        end
    end.

(** Run a step that gives a value or throws. *)
Definition lift {A} (r : A + JsVal) : Js A :=
  match r with
  | inl a => ret a
  | inr e => throw e
  end.

(** [v.k] *)
Definition prop (v : JsVal) (k : string) : Js JsVal := lift (get_prop v k).

(** [`${v}`] *)
Definition to_string (v : JsVal) : Js string := lift (ToString v).

Definition modify (f : World -> World) : Js unit :=
  fun w => (Normal tt, f w).

(** [console.error(error)] *)
Definition console_error (error : JsVal) : Js unit :=
  modify (fun w => with_console (console w ++ [error]) w).

(** The response object axios resolves with. *)
Record AxiosResponse : Type := mkResponse { data : JsVal }.

(** [await axios.<method>(url, payload)]: the request goes out and the
    next reply of the network settles it. *)
Definition axios (m : Method) (u : string) (p : JsVal) : Js AxiosResponse :=
  fun w =>
    let w1 := with_sent (sent w ++ [mkRequest m u p]) w in
    match network w with
    | [] => (Pending, w1)
    | Resolve d :: rest => (Normal (mkResponse d), with_network rest w1)
    | Reject e :: rest => (Throw e, with_network rest w1)
    end.

(* ================================================================== *)
(** ** CONFIG *)
(* ================================================================== *)

Definition API_BASE : string := "https://veff-2026-quotes.netlify.app/api/v1".
Definition LOCAL_API_BASE : string := "http://localhost:3000/api/v1".

(** The double-quote character of the template literal in [loadQuote]. *)
Definition dquote : string := String (ascii_of_nat 34) EmptyString.

(* ================================================================== *)
(** ** QUOTE FEATURE *)
(* ================================================================== *)

Definition null_set_error (property : string) : JsVal :=
  type_error ("Cannot set properties of null (setting '" ++ property ++ "')").

(** [quoteTextEl.textContent = v], where [quoteTextEl] is what
    [getElementById("quote-text")] gave: [null] on a page without it. *)
Definition set_quoteTextEl_textContent (v : JsVal) : Js unit :=
  fun w =>
    match quote_text (document w) with
    | None => (Throw (null_set_error "textContent"), w)
    | Some _ =>
        match textContent_of v with
        | inl s => (Normal tt, with_document (with_quote_text s) w)
        | inr e => (Throw e, w)
        end
    end.

(** [quoteAuthorEl.textContent = v] *)
Definition set_quoteAuthorEl_textContent (v : JsVal) : Js unit :=
  fun w =>
    match quote_author (document w) with
    | None => (Throw (null_set_error "textContent"), w)
    | Some _ =>
        match textContent_of v with
        | inl s => (Normal tt, with_document (with_quote_author s) w)
        | inr e => (Throw e, w)
        end
    end.

Definition fallback_message : string := "Oops... could not load quote.".

(** [category] is the parameter after its default ["general"] has been
    applied.  JavaScript reads [data.text] (and [data.name]) only when the
    first variant is [null] or [undefined]; reading them always is the
    same, since once [data.quote] has been read the reads neither throw nor
    change anything. *)
Definition loadQuote (category : string) : Js unit :=
  try_catch
    (response <- axios GET (API_BASE ++ "/quotes")
                   (JObj [("params", JObj [("category", JStr category)])]) ;;
     let data := data response in
     quote <- prop data "quote" ;;
     text <- prop data "text" ;;
     let quoteText := quote ?? text ?? JStr "" in
     author <- prop data "author" ;;
     name <- prop data "name" ;;
     let quoteAuthor := author ?? name ?? JStr "" in
     shown <- to_string quoteText ;;
     set_quoteTextEl_textContent (JStr (dquote ++ shown ++ dquote)) ;;
     set_quoteAuthorEl_textContent quoteAuthor)
    (fun error =>
       set_quoteTextEl_textContent (JStr fallback_message) ;;
       set_quoteAuthorEl_textContent (JStr "") ;;
       console_error error).

(* ================================================================== *)
(** ** TASKS FEATURE *)
(* ================================================================== *)

Definition fetchTasks : Js JsVal :=
  response <- axios GET (LOCAL_API_BASE ++ "/tasks") JUndefined ;;
  ret (data response).

Definition patchTaskFinished (id finished : JsVal) : Js JsVal :=
  id_text <- to_string id ;;
  response <- axios PATCH (LOCAL_API_BASE ++ "/tasks/" ++ id_text)
                (JObj [("finished", finished)]) ;;
  ret (data response).

Definition postNewTask (taskText : string) : Js JsVal :=
  response <- axios POST (LOCAL_API_BASE ++ "/tasks")
                (JObj [("task", JStr taskText)]) ;;
  ret (data response).

(** [listEl.appendChild(li)] *)
Definition append_row (r : Row) : Js unit :=
  modify (with_document (fun d =>
    match task_list d with
    | Some rows => with_task_list (rows ++ [r]) d
    | None => d
    end)).

(** The callback of [tasks.forEach]: one row per task. *)
Definition render_row (t : JsVal) : Js unit :=
  finished <- prop t "finished" ;;
  let checkbox_checked := strict_eq_num finished 1 in
  task_label <- prop t "task" ;;
  label_text <- lift (textContent_of task_label) ;;
  append_row (mkRow checkbox_checked label_text t).

Fixpoint for_each (f : JsVal -> Js unit) (items : list JsVal) : Js unit :=
  match items with
  | [] => ret tt
  | t :: rest => f t ;; for_each f rest
  end.

(** [tasks.forEach(f)]: only an array has the method. *)
Definition forEach (tasks : JsVal) (f : JsVal -> Js unit) : Js unit :=
  match tasks with
  | JArr items => for_each f items
  | JUndefined =>
      throw (type_error "Cannot read properties of undefined (reading 'forEach')")
  | JNull =>
      throw (type_error "Cannot read properties of null (reading 'forEach')")
  | _ => throw (type_error "tasks.forEach is not a function")
  end.

Definition renderTaskList (tasks : JsVal) : Js unit :=
  fun w =>
    match task_list (document w) with
    | None => (Normal tt, w)
    | Some _ =>
        (modify (with_document (with_task_list [])) ;;
         forEach tasks render_row) w
    end.

Definition loadTasks : Js unit :=
  try_catch
    (tasks <- fetchTasks ;;
     renderTaskList tasks)
    (fun error => console_error error).

(** The change listener [renderTaskList] puts on the checkbox of task [t];
    [target_checked] is [e.target.checked]. *)
Definition checkbox_change (t : JsVal) (target_checked : bool) : Js unit :=
  let newFinished := if target_checked then 1%Z else 0%Z in
  try_catch
    (id <- prop t "id" ;;
     patchTaskFinished id (JNum newFinished) ;;
     ret tt)
    (fun error => console_error error) ;;
  loadTasks.

Definition flip (r : Row) : Row :=
  mkRow (negb (checked r)) (label r) (task r).

Fixpoint update_nth {A} (i : nat) (f : A -> A) (l : list A) : list A :=
  match l, i with
  | [], _ => []
  | x :: rest, O => f x :: rest
  | x :: rest, S j => x :: update_nth j f rest
  end.

(** The user clicks the checkbox of row [i]: the browser flips it and then
    dispatches the change event to the row's listener. *)
Definition toggle (i : nat) : Js unit :=
  fun w =>
    match task_list (document w) with
    | None => (Normal tt, w)
    | Some rows =>
        match nth_error rows i with
        | None => (Normal tt, w)
        | Some r =>
            checkbox_change (task r) (negb (checked r))
              (with_document (with_task_list (update_nth i flip rows)) w)
        end
    end.

(** [if (addBtn) addBtn.disabled = b] *)
Definition set_addBtn_disabled (b : bool) : Js unit :=
  modify (with_document (fun d =>
    match add_task_btn d with
    | Some _ => with_add_task_btn b d
    | None => d
    end)).

(** [inputEl.value] is always a string, so [raw] is that string. *)
Definition handleAddTask : Js unit :=
  fun w =>
    match new_task (document w) with
    | None => (Normal tt, w)
    | Some raw =>
        let taskText := trim raw in
        if Nat.eqb (String.length taskText) 0 then (Normal tt, w)
        else
          (set_addBtn_disabled true ;;
           try_finally
             (try_catch
                (postNewTask taskText ;;
                 modify (with_document (with_new_task "")))
                (fun error => console_error error))
             (set_addBtn_disabled false) ;;
           loadTasks) w
    end.

(* ================================================================== *)
(** ** NOTES FEATURE *)
(* ================================================================== *)

Definition initial_lastSavedNotes : JsVal := JStr "".

Definition fetchNotes : Js JsVal :=
  response <- axios GET (LOCAL_API_BASE ++ "/notes") JUndefined ;;
  ret (get_prop_opt (data response) "notes" ?? JStr "").

Definition putNotes (notesText : string) : Js JsVal :=
  response <- axios PUT (LOCAL_API_BASE ++ "/notes")
                (JObj [("notes", JStr notesText)]) ;;
  ret (get_prop_opt (data response) "notes" ?? JStr notesText).

Definition setSaveNotesEnabled (enabled : bool) : Js unit :=
  fun w =>
    match save_notes_btn (document w) with
    | None => (Normal tt, w)
    | Some _ =>
        (Normal tt, with_document (with_save_notes_btn (negb enabled)) w)
    end.

Definition loadNotes : Js unit :=
  fun w =>
    match notes_text (document w) with
    | None => (Normal tt, w)
    | Some _ =>
        try_catch
          (notes <- fetchNotes ;;
           modify (with_lastSavedNotes notes) ;;
           notes_value <- lift (value_of notes) ;;
           modify (with_document (with_notes_text (textarea_value notes_value))) ;;
           setSaveNotesEnabled false)
          (fun error => console_error error) w
    end.

(** The input listener [wireNotesEvents] puts on the textarea (only when
    the page has one). *)
Definition notes_input : Js unit :=
  fun w =>
    match notes_text (document w) with
    | None => (Normal tt, w)
    | Some value =>
        setSaveNotesEnabled (negb (strict_eq_str value (lastSavedNotes w))) w
    end.

(** The click listener [wireNotesEvents] puts on the save button. *)
Definition save_notes_click : Js unit :=
  fun w =>
    let textarea := notes_text (document w) in
    let currentText := match textarea with Some v => v | None => "" end in
    try_catch
      (saved <- putNotes currentText ;;
       modify (with_lastSavedNotes saved) ;;
       match textarea with
       | Some _ =>
           saved_value <- lift (value_of saved) ;;
           modify (with_document (with_notes_text (textarea_value saved_value)))
       | None => ret tt
       end ;;
       setSaveNotesEnabled false)
      (fun error => console_error error) w.

(** The user edits the textarea: the browser stores the new value and then
    dispatches the input event to the listener. *)
Definition edit_notes (value : string) : Js unit :=
  fun w =>
    match notes_text (document w) with
    | None => (Normal tt, w)
    | Some _ => notes_input (with_document (with_notes_text value) w)
    end.

(* ================================================================== *)
(** ** Vocabulary of the statements *)
(* ================================================================== *)

Definition quote_request (category : string) : Request :=
  mkRequest GET (API_BASE ++ "/quotes")
    (JObj [("params", JObj [("category", JStr category)])]).

Definition tasks_request : Request :=
  mkRequest GET (LOCAL_API_BASE ++ "/tasks") JUndefined.

Definition patch_request (id_text : string) (finished : Z) : Request :=
  mkRequest PATCH (LOCAL_API_BASE ++ "/tasks/" ++ id_text)
    (JObj [("finished", JNum finished)]).

Definition post_request (taskText : string) : Request :=
  mkRequest POST (LOCAL_API_BASE ++ "/tasks") (JObj [("task", JStr taskText)]).

Definition notes_request : Request :=
  mkRequest GET (LOCAL_API_BASE ++ "/notes") JUndefined.

Definition put_request (notesText : string) : Request :=
  mkRequest PUT (LOCAL_API_BASE ++ "/notes") (JObj [("notes", JStr notesText)]).

(** The row [renderTaskList] builds for [t]; none when [t] is [null] or
    [undefined] or its label does not convert to a string (the callback
    throws). *)
Definition row_of (t : JsVal) : option Row :=
  if nullish t then None
  else
    match textContent_of (get_prop_opt t "task") with
    | inl label_text =>
        Some (mkRow (strict_eq_num (get_prop_opt t "finished") 1) label_text t)
    | inr _ => None
    end.

(** [rows] are the rows [renderTaskList] builds for [tasks]. *)
Definition rows_of (tasks : list JsVal) (rows : list Row) : Prop :=
  Forall2 (fun t r => row_of t = Some r) tasks rows.

(** The 0/1 encoding of a checkbox state. *)
Definition finished_of (is_checked : bool) : Z :=
  if is_checked then 1%Z else 0%Z.

(** The checkbox states a list of task objects calls for. *)
Definition finished_flags (tasks : list JsVal) : list bool :=
  map (fun t => strict_eq_num (get_prop_opt t "finished") 1) tasks.

(** The page shows, row by row, the [finished] values of [tasks]. *)
Definition displays (w : World) (tasks : list JsVal) : Prop :=
  option_map (map checked) (task_list (document w))
  = Some (finished_flags tasks).

(** Everything in the document but the children of [.task-list]. *)
Definition same_controls (d d' : Document) : Prop :=
  quote_text d' = quote_text d /\
  quote_author d' = quote_author d /\
  new_task d' = new_task d /\
  add_task_btn d' = add_task_btn d /\
  notes_text d' = notes_text d /\
  save_notes_btn d' = save_notes_btn d.

(** A step that may only change the children of [.task-list]. *)
Definition only_task_list (w w' : World) : Prop :=
  same_controls (document w) (document w') /\
  lastSavedNotes w' = lastSavedNotes w /\
  console w' = console w /\
  sent w' = sent w /\
  network w' = network w.

(** Every row on the page closes over a task that is neither [null] nor
    [undefined]. *)
Definition rows_have_tasks (w : World) : Prop :=
  forall rows r,
    task_list (document w) = Some rows -> In r rows -> nullish (task r) = false.

(** The world [handleAddTask] hands to the final [loadTasks] after a
    rejected POST: the input untouched, the add button (when the page has
    one) enabled again, the error logged, the POST recorded. *)
Definition after_failed_post (w : World) (raw : string) (e : JsVal)
           (rest : list Reply) : World :=
  mkWorld
    (match add_task_btn (document w) with
     | Some _ => with_add_task_btn false (document w)
     | None => document w
     end)
    (lastSavedNotes w)
    (console w ++ [e])
    (sent w ++ [post_request (trim raw)])
    rest.

(** The world the change listener hands to [loadTasks]: the clicked box
    flipped by the browser, the PATCH recorded and answered by [p], its
    error (if any) logged. *)
Definition after_patch (w : World) (rows : list Row) (i : nat)
           (patch : Request) (p : Reply) (rest : list Reply) : World :=
  mkWorld
    (with_task_list (update_nth i flip rows) (document w))
    (lastSavedNotes w)
    (match p with
     | Resolve _ => console w
     | Reject e => console w ++ [e]
     end)
    (sent w ++ [patch])
    rest.

(** The text [loadQuote] shows for a quote. *)
Definition quoted (s : string) : string := (dquote ++ s ++ dquote)%string.

(** The quote text and the author [loadQuote] picks from a response body. *)
Definition quoteText_of (d : JsVal) : JsVal :=
  get_prop_opt d "quote" ?? get_prop_opt d "text" ?? JStr "".

Definition quoteAuthor_of (d : JsVal) : JsVal :=
  get_prop_opt d "author" ?? get_prop_opt d "name" ?? JStr "".

(** What the [try] block of [loadQuote] comes to on a page with both quote
    elements: the error it throws ([inl]: the rejection of the request, the
    TypeError of reading a property of a [null] or [undefined] body, or
    that of a picked value that does not convert to a string), or the quote
    text and author it shows ([inr]). *)
Definition quote_outcome (r : Reply) : JsVal + string * string :=
  match r with
  | Reject e => inl e
  | Resolve d =>
      match get_prop d "quote" with
      | inr e => inl e
      | inl _ =>
          match ToString (quoteText_of d) with
          | inr e => inl e
          | inl shown =>
              match textContent_of (quoteAuthor_of d) with
              | inr e => inl e
              | inl author => inr (quoted shown, author)
              end
          end
      end
  end.

(** What the save listener reads as [currentText]. *)
Definition currentText_of (w : World) : string :=
  match notes_text (document w) with
  | Some value => value
  | None => ""
  end.

(** A page with every element the script binds to. *)
Definition full_page : Document :=
  mkDocument (Some "") (Some "") (Some []) (Some "") (Some false)
    (Some "") (Some true).

(** The world at script start on page [d], with the replies [net] ahead. *)
Definition start (d : Document) (net : list Reply) : World :=
  mkWorld d initial_lastSavedNotes [] [] net.

Definition network_error : JsVal := JError "AxiosError" "Network Error".

Definition buy_milk (finished : Z) : JsVal :=
  JObj [("id", JNum 1); ("task", JStr "Buy milk"); ("finished", JNum finished)].

Definition buy_milk_row (finished : Z) : Row :=
  mkRow (Z.eqb finished 1) "Buy milk" (buy_milk finished).

(* ================================================================== *)
(** ** Wiring and start-up *)
(* ================================================================== *)

(** The listeners the three wiring functions attach; each names its target
    and event.  (The checkbox listeners live in the rows.) *)
Inductive Listener : Type :=
| OnSelectChange      (* #quote-category-select, change *)
| OnNewQuoteClick     (* #new-quote-btn, click *)
| OnAddTaskClick      (* #add-task-btn, click *)
| OnFormSubmit        (* #submit-new-task, submit *)
| OnNotesInput        (* #notes-text, input *)
| OnSaveNotesClick.   (* #save-notes-btn, click *)

(** The world together with the three elements only the wiring looks up and
    the listeners attached so far, oldest first.  [addEventListener] with a
    fresh function always adds one. *)
Record Page : Type := mkPage {
  world : World;
  quote_category_select : option string;   (* #quote-category-select, value *)
  new_quote_btn : bool;                    (* #new-quote-btn is on the page *)
  submit_new_task : bool;                  (* #submit-new-task is on the page *)
  listeners : list Listener
}.

Definition with_world (w : World) (p : Page) : Page :=
  mkPage w (quote_category_select p) (new_quote_btn p) (submit_new_task p)
    (listeners p).

Definition addEventListener (l : Listener) (p : Page) : Page :=
  mkPage (world p) (quote_category_select p) (new_quote_btn p)
    (submit_new_task p) (listeners p ++ [l]).

Definition is_some {A} (o : option A) : bool :=
  match o with
  | Some _ => true
  | None => false
  end.

(** [select?.value || "general"] (and [e.target.value || "general"] on the
    select itself): the empty string is falsy. *)
Definition category_of (select : option string) : string :=
  match select with
  | Some value => if String.eqb value "" then "general" else value
  | None => "general"
  end.

Definition wireQuoteEvents (p : Page) : Page :=
  let p1 := if is_some (quote_category_select p)
            then addEventListener OnSelectChange p else p in
  if new_quote_btn p1 then addEventListener OnNewQuoteClick p1 else p1.

Definition wireTaskEvents (p : Page) : Page :=
  let p1 := if is_some (add_task_btn (document (world p)))
            then addEventListener OnAddTaskClick p else p in
  if submit_new_task p1 then addEventListener OnFormSubmit p1 else p1.

Definition wireNotesEvents (p : Page) : Page :=
  let p1 := if is_some (notes_text (document (world p)))
            then addEventListener OnNotesInput p else p in
  if is_some (save_notes_btn (document (world p1)))
  then addEventListener OnSaveNotesClick p1 else p1.

(** What a listener does when its event fires on a page whose select holds
    [select].  [e.preventDefault()] of the submit listener only keeps the
    browser from navigating. *)
Definition listener_body (select : option string) (l : Listener) : Js unit :=
  match l with
  | OnSelectChange => loadQuote (category_of select)
  | OnNewQuoteClick => loadQuote (category_of select)
  | OnAddTaskClick => handleAddTask
  | OnFormSubmit => handleAddTask
  | OnNotesInput => notes_input
  | OnSaveNotesClick => save_notes_click
  end.

Definition init (p : Page) : Completion unit * Page :=
  let p1 := wireQuoteEvents p in
  let category := category_of (quote_category_select p1) in
  match loadQuote category (world p1) with
  | (Normal _, w1) =>
      let p2 := wireNotesEvents (wireTaskEvents (with_world w1 p1)) in
      match loadTasks (world p2) with
      | (Normal _, w2) =>
          match loadNotes w2 with
          | (c, w3) => (c, with_world w3 p2)
          end
      | (c, w2) => (c, with_world w2 p2)
      end
  | (c, w1) => (c, with_world w1 p1)
  end.

(** The listeners a page gets from one round of wiring, in the order
    [init] attaches them. *)
Definition wired (p : Page) : list Listener :=
  (if is_some (quote_category_select p) then [OnSelectChange] else [])
  ++ (if new_quote_btn p then [OnNewQuoteClick] else [])
  ++ (if is_some (add_task_btn (document (world p))) then [OnAddTaskClick] else [])
  ++ (if submit_new_task p then [OnFormSubmit] else [])
  ++ (if is_some (notes_text (document (world p))) then [OnNotesInput] else [])
  ++ (if is_some (save_notes_btn (document (world p))) then [OnSaveNotesClick] else []).

(** Only the quote listeners. *)
Definition wired_quote (p : Page) : list Listener :=
  (if is_some (quote_category_select p) then [OnSelectChange] else [])
  ++ (if new_quote_btn p then [OnNewQuoteClick] else []).

(* ================================================================== *)
(** ** More vocabulary *)
(* ================================================================== *)

Definition is_array (v : JsVal) : bool :=
  match v with
  | JArr _ => true
  | _ => false
  end.

Definition is_string (v : JsVal) : bool :=
  match v with
  | JStr _ => true
  | _ => false
  end.

(** The same elements are on the page (whatever they hold). *)
Definition same_elements (d d' : Document) : Prop :=
  is_some (quote_text d') = is_some (quote_text d) /\
  is_some (quote_author d') = is_some (quote_author d) /\
  is_some (task_list d') = is_some (task_list d) /\
  is_some (new_task d') = is_some (new_task d) /\
  is_some (add_task_btn d') = is_some (add_task_btn d) /\
  is_some (notes_text d') = is_some (notes_text d) /\
  is_some (save_notes_btn d') = is_some (save_notes_btn d).

(** Everything but the two quote elements. *)
Definition same_but_quote (d d' : Document) : Prop :=
  task_list d' = task_list d /\
  new_task d' = new_task d /\
  add_task_btn d' = add_task_btn d /\
  notes_text d' = notes_text d /\
  save_notes_btn d' = save_notes_btn d.

(** Everything but the textarea and the save button. *)
Definition same_but_notes (d d' : Document) : Prop :=
  quote_text d' = quote_text d /\
  quote_author d' = quote_author d /\
  task_list d' = task_list d /\
  new_task d' = new_task d /\
  add_task_btn d' = add_task_btn d.

(** Everything but the task list, the new-task input and the add button. *)
Definition same_but_tasks (d d' : Document) : Prop :=
  quote_text d' = quote_text d /\
  quote_author d' = quote_author d /\
  notes_text d' = notes_text d /\
  save_notes_btn d' = save_notes_btn d.

(** The world [handleAddTask] hands to the final [loadTasks] after a POST
    that resolved: the input cleared, the add button (when the page has
    one) enabled, the POST recorded, nothing logged. *)
Definition after_post (w : World) (raw : string) (rest : list Reply) : World :=
  mkWorld
    (match add_task_btn (document w) with
     | Some _ => with_add_task_btn false (with_new_task "" (document w))
     | None => with_new_task "" (document w)
     end)
    (lastSavedNotes w)
    (console w)
    (sent w ++ [post_request (trim raw)])
    rest.

(** The notes [loadNotes] takes from a response body. *)
Definition notes_of (d : JsVal) : JsVal := get_prop_opt d "notes" ?? JStr "".

Definition full (w : World) : Page := mkPage w (Some "") true true [].

(** The text of a line feed and of a carriage return. *)
Definition LF : string := String (ascii_of_nat 10) EmptyString.
Definition CR : string := String (ascii_of_nat 13) EmptyString.

(** Notes with a Windows line break, and what a textarea reports for
    them. *)
Definition two_lines_crlf : string := ("a" ++ CR ++ LF ++ "b")%string.
Definition two_lines_lf : string := ("a" ++ LF ++ "b")%string.

(** An object that cannot be converted to a string. *)
Definition unprintable : JsVal := JObj [("toString", JNum 1)].

(* ================================================================== *)
(** ** Basic facts *)
(* ================================================================== *)

Example trim_blank : trim "  " = "" /\ trim "" = "".
Proof. split; reflexivity. Qed.

Example trim_keeps_inner_space : trim "  Buy  milk  " = "Buy  milk".
Proof. reflexivity. Qed.

(** A no-break space (U+00A0, bytes C2 A0) is white space too. *)
Example trim_no_break_space :
  trim (String (ascii_of_nat 194) (String (ascii_of_nat 160) "x")) = "x".
Proof. reflexivity. Qed.

Example ToString_samples :
  ToString (JNum 42) = inl "42" /\
  ToString (JArr [JNum 1; JNull; JStr "a"; JArr [JNum 2; JNum 3]]) = inl "1,,a,2,3" /\
  ToString (JObj [("id", JNum 1)]) = inl "[object Object]" /\
  ToString (JObj [("toString", JNum 1)]) = inr cannot_convert.
Proof. repeat split. Qed.

(** Numbers print as JavaScript prints them: integers no double holds
    show the digits of the nearest double, and 22 digits or more turn into
    exponent form. *)
Example string_of_Z_samples :
  string_of_Z 42 = "42" /\
  string_of_Z (-7) = "-7" /\
  string_of_Z 0 = "0" /\
  string_of_Z 9007199254740993 = "9007199254740992" /\
  string_of_Z (2 ^ 63) = "9223372036854776000" /\
  string_of_Z (10 ^ 21 - 1) = "1e+21" /\
  string_of_Z (10 ^ 21) = "1e+21" /\
  string_of_Z 123456789012345678901234567890 = "1.2345678901234568e+29" /\
  string_of_Z (2 ^ 1024) = "Infinity".
Proof. vm_compute. repeat split. Qed.

Example textarea_value_samples :
  textarea_value two_lines_crlf = two_lines_lf /\
  textarea_value ("a" ++ CR ++ "b")%string = two_lines_lf /\
  textarea_value two_lines_lf = two_lines_lf.
Proof. repeat split. Qed.

Lemma nullish_coalesce_str (a b : JsVal) (s : string) :
  nullish (a ?? b ?? JStr s) = false.
Proof.
  unfold coalesce.
  destruct (nullish a) eqn:Ha; [ | exact Ha ].
  destruct (nullish b) eqn:Hb; [ reflexivity | exact Hb ].
Qed.

Lemma textContent_of_not_nullish (v : JsVal) :
  nullish v = false -> textContent_of v = ToString v.
Proof. unfold textContent_of. intros ->. reflexivity. Qed.

Lemma value_of_not_nullish (v : JsVal) :
  nullish v = false -> value_of v = ToString v.
Proof. destruct v; simpl; intros H; try discriminate H; reflexivity. Qed.

Lemma prop_not_nullish (v : JsVal) (k : string) :
  nullish v = false -> prop v k = ret (get_prop_opt v k).
Proof.
  unfold prop, get_prop_opt.
  destruct v; simpl; intros H; try discriminate H; reflexivity.
Qed.

Lemma get_prop_not_nullish (v : JsVal) (k : string) :
  nullish v = false -> get_prop v k = inl (get_prop_opt v k).
Proof.
  unfold get_prop_opt.
  destruct v; simpl; intros H; try discriminate H; reflexivity.
Qed.

Lemma strict_eq_str_spec (s : string) (v : JsVal) :
  strict_eq_str s v = true <-> JStr s = v.
Proof.
  destruct v; simpl; split; intros H; try discriminate H.
  - apply String.eqb_eq in H. now subst.
  - injection H as ->. apply String.eqb_refl.
Qed.

Lemma length_zero_iff_empty (s : string) :
  Nat.eqb (String.length s) 0 = true <-> s = "".
Proof.
  destruct s; simpl; split; intros H; try reflexivity; discriminate H.
Qed.

(** *** One row *)

(** The callback of [forEach] either throws before touching the page, or
    appends one row built from a task that is neither [null] nor
    [undefined]. *)
Lemma render_row_cases (t : JsVal) (w : World) :
  (exists e, render_row t w = (Throw e, w)) \/
  (exists r, row_of t = Some r /\ task r = t /\ nullish t = false /\
             render_row t w = append_row r w).
Proof.
  destruct (nullish t) eqn:Hnull.
  - left. destruct t; try discriminate Hnull; eexists; reflexivity.
  - unfold render_row, row_of. rewrite Hnull.
    rewrite !prop_not_nullish by exact Hnull.
    unfold bind, ret, lift.
    destruct (textContent_of (get_prop_opt t "task")) as [ s | e ].
    + right. eexists. repeat split.
    + left. exists e. reflexivity.
Qed.

Lemma render_row_ok (t : JsVal) (r : Row) (w : World) (rows : list Row) :
  row_of t = Some r ->
  task_list (document w) = Some rows ->
  render_row t w
  = (Normal tt, with_document (with_task_list (rows ++ [r])) w).
Proof.
  intros Hrow Hrows.
  destruct (render_row_cases t w) as [ (e & Hthrow) | (r' & Hrow' & _ & _ & Hrun) ].
  - exfalso. revert Hthrow Hrow. unfold render_row, row_of.
    destruct (nullish t) eqn:Hnull; [ discriminate | ].
    rewrite !prop_not_nullish by exact Hnull.
    unfold bind, ret, lift, append_row, modify.
    destruct (textContent_of (get_prop_opt t "task")); discriminate.
  - rewrite Hrun. rewrite Hrow in Hrow'. injection Hrow' as <-.
    unfold append_row, modify, with_document. now rewrite Hrows.
Qed.

Lemma for_each_render_ok (ts : list JsVal) (rs : list Row) :
  rows_of ts rs ->
  forall (w : World) (rows : list Row),
    task_list (document w) = Some rows ->
    for_each render_row ts w
    = (Normal tt, with_document (with_task_list (rows ++ rs)) w).
Proof.
  induction 1 as [ | t r ts rs Hrow _ IH ]; intros w rows Hrows; simpl.
  - rewrite app_nil_r. unfold ret, with_document, with_task_list.
    destruct w as [ d l c s n ]; destruct d; simpl in *. now rewrite Hrows.
  - unfold bind. rewrite (render_row_ok t r w rows Hrow Hrows).
    rewrite (IH _ (rows ++ [r])) by reflexivity.
    rewrite <- app_assoc. reflexivity.
Qed.

Lemma renderTaskList_ok (ts : list JsVal) (rs : list Row) (w : World)
      (rows : list Row) :
  rows_of ts rs ->
  task_list (document w) = Some rows ->
  renderTaskList (JArr ts) w
  = (Normal tt, with_document (with_task_list rs) w).
Proof.
  intros Hts Hrows. unfold renderTaskList. rewrite Hrows.
  unfold bind, modify, forEach.
  rewrite (for_each_render_ok ts rs Hts _ []) by reflexivity.
  reflexivity.
Qed.

Lemma rows_of_checked (ts : list JsVal) (rs : list Row) :
  rows_of ts rs -> map checked rs = finished_flags ts.
Proof.
  induction 1 as [ | t r ts rs Hrow _ IH ]; simpl; [ reflexivity | ].
  rewrite IH. f_equal.
  revert Hrow. unfold row_of.
  destruct (nullish t); [ discriminate | ].
  destruct (textContent_of (get_prop_opt t "task")); [ | discriminate ].
  intros H; injection H as <-. reflexivity.
Qed.

(** *** What [loadTasks] leaves alone *)

Lemma only_task_list_refl (w : World) : only_task_list w w.
Proof. repeat split. Qed.

Lemma only_task_list_trans (w1 w2 w3 : World) :
  only_task_list w1 w2 -> only_task_list w2 w3 -> only_task_list w1 w3.
Proof.
  unfold only_task_list, same_controls.
  intros (Ha & ? & ? & ? & ?) (Hb & ? & ? & ? & ?).
  destruct Ha as (? & ? & ? & ? & ? & ?), Hb as (? & ? & ? & ? & ? & ?).
  repeat split; congruence.
Qed.

Lemma only_task_list_set (w : World) (rows : list Row) :
  only_task_list w (with_document (with_task_list rows) w).
Proof. repeat split. Qed.

Lemma append_row_frame (r : Row) (w : World) :
  only_task_list w (snd (append_row r w)).
Proof.
  unfold append_row, modify, only_task_list, same_controls, with_document; simpl.
  destruct (task_list (document w)); simpl; repeat split.
Qed.

Lemma render_row_frame (t : JsVal) (w w' : World) (c : Completion unit) :
  render_row t w = (c, w') -> only_task_list w w'.
Proof.
  destruct (render_row_cases t w) as [ (e & ->) | (r & _ & _ & _ & ->) ];
    intros H.
  - inversion H. apply only_task_list_refl.
  - replace w' with (snd (append_row r w)) by now rewrite H.
    apply append_row_frame.
Qed.

Lemma for_each_render_frame (ts : list JsVal) :
  forall (w w' : World) (c : Completion unit),
    for_each render_row ts w = (c, w') -> only_task_list w w'.
Proof.
  induction ts as [ | t ts IH ]; simpl; intros w w' c H.
  - inversion H. apply only_task_list_refl.
  - unfold bind in H.
    destruct (render_row t w) as [ c1 w1 ] eqn:Hrow.
    apply render_row_frame in Hrow.
    destruct c1 as [ [] | e | ].
    + apply IH in H. eapply only_task_list_trans; eassumption.
    + inversion H; subst. exact Hrow.
    + inversion H; subst. exact Hrow.
Qed.

Lemma renderTaskList_frame (tasks : JsVal) (w w' : World) (c : Completion unit) :
  renderTaskList tasks w = (c, w') -> only_task_list w w'.
Proof.
  unfold renderTaskList.
  destruct (task_list (document w)) as [ rows | ].
  - unfold bind, modify, forEach, throw. intros H.
    apply only_task_list_trans with (1 := only_task_list_set w []).
    destruct tasks; try (inversion H; subst; apply only_task_list_refl).
    eapply for_each_render_frame. exact H.
  - intros H. inversion H. apply only_task_list_refl.
Qed.

(** *** The rows on the page come from task objects *)

Lemma render_row_keeps_tasks (t : JsVal) (w w' : World) (c : Completion unit) :
  rows_have_tasks w -> render_row t w = (c, w') -> rows_have_tasks w'.
Proof.
  intros Hinv.
  destruct (render_row_cases t w) as [ (e & ->) | (r & _ & Htask & Hnull & ->) ];
    intros H.
  - inversion H; subst. exact Hinv.
  - unfold append_row, modify, with_document in H. inversion H; subst; clear H.
    unfold rows_have_tasks; simpl.
    destruct (task_list (document w)) as [ rows0 | ] eqn:Hrows; simpl;
      intros rows r' Heq Hin.
    + injection Heq as <-.
      apply in_app_or in Hin. destruct Hin as [ Hin | [ <- | [] ] ].
      * eapply Hinv; [ exact Hrows | exact Hin ].
      * exact Hnull.
    + rewrite Hrows in Heq. discriminate Heq.
Qed.

Lemma for_each_render_keeps_tasks (ts : list JsVal) :
  forall (w w' : World) (c : Completion unit),
    rows_have_tasks w -> for_each render_row ts w = (c, w') ->
    rows_have_tasks w'.
Proof.
  induction ts as [ | t ts IH ]; simpl; intros w w' c Hinv H.
  - inversion H; subst. exact Hinv.
  - unfold bind in H.
    destruct (render_row t w) as [ c1 w1 ] eqn:Hrow.
    apply render_row_keeps_tasks in Hrow; [ | exact Hinv ].
    destruct c1 as [ [] | e | ].
    + eapply IH; eassumption.
    + inversion H; subst. exact Hrow.
    + inversion H; subst. exact Hrow.
Qed.

(** Every row [renderTaskList] leaves in the container was built from a
    task that is neither [null] nor [undefined]. *)
Lemma renderTaskList_rows_have_tasks (tasks : JsVal) (w w' : World)
      (c : Completion unit) :
  rows_have_tasks w ->
  renderTaskList tasks w = (c, w') -> rows_have_tasks w'.
Proof.
  intros Hinv. unfold renderTaskList.
  destruct (task_list (document w)) as [ rows0 | ] eqn:Hrows.
  - unfold bind, modify, forEach, throw. simpl.
    assert (rows_have_tasks (with_document (with_task_list []) w)) as Hempty.
    { intros rows r Heq Hin. simpl in Heq. injection Heq as <-. destruct Hin. }
    destruct tasks; intros H; try (inversion H; subst; exact Hempty).
    eapply for_each_render_keeps_tasks; eassumption.
  - intros H; inversion H; subst. exact Hinv.
Qed.

(** *** [loadTasks] *)

(** [loadTasks] never throws, issues exactly the GET for the tasks, only
    adds to the console, and touches nothing but the task list. *)
Lemma loadTasks_frame (w w' : World) (c : Completion unit) :
  loadTasks w = (c, w') ->
  (forall e, c <> Throw e) /\
  same_controls (document w) (document w') /\
  lastSavedNotes w' = lastSavedNotes w /\
  sent w' = sent w ++ [tasks_request] /\
  (exists logged, console w' = console w ++ logged).
Proof.
  unfold loadTasks, try_catch, fetchTasks, bind, axios, ret, console_error, modify.
  destruct (network w) as [ | [ d | e ] rest ]; simpl.
  - intros H; inversion H; subst; clear H. simpl.
    repeat split; try discriminate. exists []. now rewrite app_nil_r.
  - destruct (renderTaskList d _) as [ c1 w1 ] eqn:Hrender.
    apply renderTaskList_frame in Hrender.
    destruct Hrender as (Hd & Hl & Hc & Hs & Hn). simpl in *.
    destruct c1 as [ [] | e | ]; intros H; inversion H; subst; clear H; simpl;
      repeat split; try discriminate; try assumption; try apply Hd.
    + exists []. now rewrite app_nil_r.
    + rewrite Hc. eexists; reflexivity.
    + exists []. now rewrite app_nil_r.
  - intros H; inversion H; subst; clear H. simpl.
    repeat split; try discriminate. eexists; reflexivity.
Qed.

(** Starting from a page whose rows come from task objects (an empty list,
    say), every reload leaves such a page. *)
Lemma loadTasks_rows_have_tasks (w w' : World) (c : Completion unit) :
  rows_have_tasks w -> loadTasks w = (c, w') -> rows_have_tasks w'.
Proof.
  intros Hinv.
  unfold loadTasks, try_catch, fetchTasks, bind, axios, ret, console_error, modify.
  destruct (network w) as [ | [ d | e ] rest ]; simpl.
  - intros H; inversion H; subst. exact Hinv.
  - destruct (renderTaskList d _) as [ c1 w1 ] eqn:Hrender.
    apply renderTaskList_rows_have_tasks in Hrender; [ | exact Hinv ].
    destruct c1 as [ [] | e | ]; intros H; inversion H; subst; exact Hrender.
  - intros H; inversion H; subst. exact Hinv.
Qed.

Lemma loadTasks_rejected (w : World) (e : JsVal) (rest : list Reply) :
  network w = Reject e :: rest ->
  loadTasks w
  = (Normal tt,
     mkWorld (document w) (lastSavedNotes w) (console w ++ [e])
       (sent w ++ [tasks_request]) rest).
Proof.
  intros Hnet.
  unfold loadTasks, try_catch, fetchTasks, bind, axios. rewrite Hnet.
  reflexivity.
Qed.

Lemma loadTasks_resolved (w : World) (ts : list JsVal) (rs : list Row)
      (rest : list Reply) (rows : list Row) :
  network w = Resolve (JArr ts) :: rest ->
  rows_of ts rs ->
  task_list (document w) = Some rows ->
  loadTasks w
  = (Normal tt,
     mkWorld (with_task_list rs (document w)) (lastSavedNotes w)
       (console w) (sent w ++ [tasks_request]) rest).
Proof.
  intros Hnet Hts Hrows.
  unfold loadTasks, try_catch, fetchTasks, bind, axios. rewrite Hnet.
  simpl. unfold ret.
  rewrite (renderTaskList_ok ts rs _ rows Hts) by exact Hrows.
  reflexivity.
Qed.
(* ================================================================== *)
(** ** Task list *)
(* ================================================================== *)

(** C10: whatever [tasks] is, [renderTaskList] on a page without a
    [.task-list] element returns normally and leaves the whole world (the
    document included) as it was. *)
Theorem renderTaskList_without_container (tasks : JsVal) (w : World) :
  task_list (document w) = None ->
  renderTaskList tasks w = (Normal tt, w).
Proof.
  intros Hnone. unfold renderTaskList. now rewrite Hnone.
Qed.

Lemma renderTaskList_without_container_witness :
  let w := start (mkDocument (Some "") (Some "") None (Some "") (Some false)
                    (Some "") (Some true)) [] in
  task_list (document w) = None /\
  renderTaskList (JArr [buy_milk 0; JNull]) w = (Normal tt, w).
Proof.
  split; [ reflexivity | ].
  apply (renderTaskList_without_container (JArr [buy_milk 0; JNull])).
  reflexivity.
Defined.

(** C7: when the fetch of [loadTasks] or of [loadNotes] is rejected, the
    function returns normally (the error is not propagated), the error is
    logged once, and the document and [lastSavedNotes] are exactly what they
    were: the task list is not re-rendered, the textarea keeps its value
    and the baseline is not moved. *)
Theorem failed_fetch_keeps_display (w : World) (e : JsVal) (rest : list Reply) :
  network w = Reject e :: rest ->
  (exists w',
      loadTasks w = (Normal tt, w') /\
      document w' = document w /\
      lastSavedNotes w' = lastSavedNotes w /\
      console w' = console w ++ [e] /\
      sent w' = sent w ++ [tasks_request]) /\
  (forall value,
      notes_text (document w) = Some value ->
      exists w',
        loadNotes w = (Normal tt, w') /\
        document w' = document w /\
        notes_text (document w') = Some value /\
        lastSavedNotes w' = lastSavedNotes w /\
        console w' = console w ++ [e] /\
        sent w' = sent w ++ [notes_request]).
Proof.
  intros Hnet. split.
  - eexists. split; [ apply loadTasks_rejected; exact Hnet | ].
    repeat split.
  - intros value Hvalue. eexists. split.
    + unfold loadNotes. rewrite Hvalue.
      unfold try_catch, fetchNotes, bind, axios. rewrite Hnet.
      reflexivity.
    + simpl. repeat split. exact Hvalue.
Qed.

Lemma failed_fetch_keeps_display_witness :
  let w := mkWorld (with_notes_text "draft"
                      (with_task_list [buy_milk_row 1] full_page))
             (JStr "saved") [] [] [Reject network_error] in
  network w = [Reject network_error] /\
  (exists w', loadTasks w = (Normal tt, w') /\
              task_list (document w') = Some [buy_milk_row 1]) /\
  (exists w', loadNotes w = (Normal tt, w') /\
              notes_text (document w') = Some "draft" /\
              lastSavedNotes w' = JStr "saved").
Proof.
  set (w := mkWorld (with_notes_text "draft"
                       (with_task_list [buy_milk_row 1] full_page))
              (JStr "saved") [] [] [Reject network_error]).
  cbv zeta.
  destruct (failed_fetch_keeps_display w network_error [] eq_refl)
    as [ (w1 & H1 & Hd1 & _) Hnotes ].
  destruct (Hnotes "draft" eq_refl) as (w2 & H2 & _ & Hv & Hl & _).
  split; [ reflexivity | split ].
  - exists w1. split; [ exact H1 | now rewrite Hd1 ].
  - exists w2. repeat split; assumption.
Defined.

(** C5: when the value of the new-task input trims to the empty string,
    [handleAddTask] returns with the world untouched: no request is sent
    (so no POST), the input keeps its text, the add button keeps its state
    and the task list is neither reloaded nor re-rendered. *)
Theorem handleAddTask_blank (w : World) (raw : string) :
  new_task (document w) = Some raw ->
  trim raw = "" ->
  handleAddTask w = (Normal tt, w).
Proof.
  intros Hraw Hblank. unfold handleAddTask.
  rewrite Hraw, Hblank. reflexivity.
Qed.

Lemma handleAddTask_blank_witness :
  let w := start (with_new_task "  " full_page) [Resolve JNull] in
  new_task (document w) = Some "  " /\
  trim "  " = "" /\
  handleAddTask w = (Normal tt, w) /\
  sent w = [].
Proof.
  cbv zeta.
  split; [ reflexivity | split; [ reflexivity | split; [ | reflexivity ] ] ].
  apply (handleAddTask_blank
           (start (with_new_task "  " full_page) [Resolve JNull]) "  ");
    reflexivity.
Defined.

(** C6: when the input does not trim to the empty string and the POST is
    rejected, [handleAddTask] logs the error, leaves the typed text in the
    input, re-enables the add button in the [finally] block, and then runs
    [loadTasks]; whatever that reload does, at the end the typed text is
    still there, the button is still enabled, the error is in the log, the
    requests sent are the POST followed by the GET of the tasks, and
    nothing was thrown. *)
Theorem handleAddTask_failed_post (w : World) (raw : string) (e : JsVal)
        (rest : list Reply) :
  new_task (document w) = Some raw ->
  trim raw <> "" ->
  network w = Reject e :: rest ->
  let w1 := after_failed_post w raw e rest in
  handleAddTask w = loadTasks w1 /\
  new_task (document w1) = Some raw /\
  add_task_btn (document w1)
    = option_map (fun _ => false) (add_task_btn (document w)) /\
  forall c w',
    handleAddTask w = (c, w') ->
    (forall e', c <> Throw e') /\
    new_task (document w') = Some raw /\
    add_task_btn (document w')
      = option_map (fun _ => false) (add_task_btn (document w)) /\
    In e (console w') /\
    sent w' = sent w ++ [post_request (trim raw); tasks_request].
Proof.
  intros Hraw Hfilled Hnet w1.
  assert (handleAddTask w = loadTasks w1) as Hrun.
  { unfold handleAddTask. rewrite Hraw.
    destruct (Nat.eqb (String.length (trim raw)) 0) eqn:Hlen.
    - apply length_zero_iff_empty in Hlen. contradiction.
    - unfold bind, try_finally, try_catch, set_addBtn_disabled, modify,
        postNewTask, bind, axios, console_error, modify.
      simpl. rewrite Hnet. simpl.
      unfold w1, after_failed_post.
      destruct w as [d l c s n]; destruct d; simpl in *.
      destruct add_task_btn0; reflexivity. }
  assert (new_task (document w1) = Some raw) as Hinput.
  { unfold w1, after_failed_post; simpl.
    destruct (add_task_btn (document w)); exact Hraw. }
  assert (add_task_btn (document w1)
          = option_map (fun _ => false) (add_task_btn (document w))) as Hbtn.
  { unfold w1, after_failed_post; simpl.
    destruct (add_task_btn (document w)) eqn:Hb; simpl; [ reflexivity | exact Hb ]. }
  repeat split; try assumption.
  - rewrite Hrun in H.
    apply loadTasks_frame in H. destruct H as (Hthrow & _). apply Hthrow.
  - rewrite Hrun in H. apply loadTasks_frame in H.
    destruct H as (_ & Hsame & _). destruct Hsame as (_ & _ & Hnew & _).
    now rewrite Hnew.
  - rewrite Hrun in H. apply loadTasks_frame in H.
    destruct H as (_ & Hsame & _). destruct Hsame as (_ & _ & _ & Hadd & _).
    now rewrite Hadd.
  - rewrite Hrun in H. apply loadTasks_frame in H.
    destruct H as (_ & _ & _ & _ & logged & Hlog).
    rewrite Hlog. unfold w1, after_failed_post; simpl.
    apply in_or_app. left. apply in_or_app. right. now left.
  - rewrite Hrun in H. apply loadTasks_frame in H.
    destruct H as (_ & _ & _ & Hsent & _).
    rewrite Hsent. unfold w1, after_failed_post; simpl.
    now rewrite <- app_assoc.
Qed.

Lemma handleAddTask_failed_post_witness :
  let w := start (with_new_task " x " full_page)
             [Reject network_error; Resolve (JArr [])] in
  new_task (document w) = Some " x " /\
  trim " x " <> "" /\
  network w = [Reject network_error; Resolve (JArr [])] /\
  handleAddTask w
  = loadTasks (after_failed_post w " x " network_error [Resolve (JArr [])]).
Proof.
  cbv zeta.
  assert (trim " x " <> "") as Hfilled by (vm_compute; discriminate).
  split; [ reflexivity | split; [ exact Hfilled | split; [ reflexivity | ] ] ].
  exact (proj1 (handleAddTask_failed_post
                  (start (with_new_task " x " full_page)
                     [Reject network_error; Resolve (JArr [])])
                  " x " network_error [Resolve (JArr [])]
                  eq_refl Hfilled eq_refl)).
Defined.

(** C1 (as the code has it): a click on the checkbox of a rendered task
    sends the PATCH for that task's id with the new checked state as 0/1
    and, whether that PATCH resolves or is rejected, then runs [loadTasks].
    When the GET of that reload resolves with an array of task objects, the
    page afterwards shows exactly the fetched [finished] values (a box is
    checked iff [finished === 1]); when the GET is rejected, the previous
    rendering stays, with the clicked box in its clicked state. *)
Theorem toggle_patches_then_reloads (w : World) (rows : list Row) (i : nat)
        (r : Row) (id_text : string) (p : Reply) (rest : list Reply) :
  task_list (document w) = Some rows ->
  nth_error rows i = Some r ->
  nullish (task r) = false ->
  ToString (get_prop_opt (task r) "id") = inl id_text ->
  network w = p :: rest ->
  let patch := patch_request id_text (finished_of (negb (checked r))) in
  toggle i w = loadTasks (after_patch w rows i patch p rest) /\
  (forall tasks rs rest',
      rest = Resolve (JArr tasks) :: rest' ->
      rows_of tasks rs ->
      exists w',
        toggle i w = (Normal tt, w') /\
        task_list (document w') = Some rs /\
        displays w' tasks /\
        sent w' = sent w ++ [patch; tasks_request]) /\
  (forall e rest',
      rest = Reject e :: rest' ->
      exists w',
        toggle i w = (Normal tt, w') /\
        task_list (document w') = Some (update_nth i flip rows) /\
        In e (console w') /\
        sent w' = sent w ++ [patch; tasks_request]).
Proof.
  intros Hrows Hnth Htask Hid Hnet patch.
  assert (toggle i w = loadTasks (after_patch w rows i patch p rest)) as Hrun.
  { unfold toggle. rewrite Hrows, Hnth.
    unfold checkbox_change, try_catch, bind.
    rewrite prop_not_nullish by exact Htask.
    unfold ret, patchTaskFinished, to_string, bind. rewrite Hid.
    unfold lift, ret, axios. simpl. rewrite Hnet.
    unfold after_patch, patch, patch_request, finished_of.
    destruct p as [ d | e ]; reflexivity. }
  split; [ exact Hrun | split ].
  - intros tasks rs rest' -> Htasks. eexists.
    rewrite Hrun. split.
    + apply (loadTasks_resolved _ tasks rs rest' (update_nth i flip rows));
        [ reflexivity | exact Htasks | reflexivity ].
    + simpl. split; [ reflexivity | split ].
      * unfold displays. simpl. now rewrite (rows_of_checked tasks rs Htasks).
      * now rewrite <- app_assoc.
  - intros e rest' ->. eexists.
    rewrite Hrun. split.
    + apply loadTasks_rejected. reflexivity.
    + simpl. split; [ reflexivity | split ].
      * apply in_or_app. right. now left.
      * now rewrite <- app_assoc.
Qed.

Lemma toggle_patches_then_reloads_witness :
  let w := mkWorld (with_task_list [buy_milk_row 0] full_page)
             initial_lastSavedNotes [] [tasks_request]
             [Resolve (buy_milk 1); Resolve (JArr [buy_milk 1])] in
  task_list (document w) = Some [buy_milk_row 0] /\
  nth_error [buy_milk_row 0] 0 = Some (buy_milk_row 0) /\
  nullish (task (buy_milk_row 0)) = false /\
  ToString (get_prop_opt (task (buy_milk_row 0)) "id") = inl "1" /\
  network w = [Resolve (buy_milk 1); Resolve (JArr [buy_milk 1])] /\
  exists w',
    toggle 0 w = (Normal tt, w') /\
    task_list (document w') = Some [buy_milk_row 1] /\
    displays w' [buy_milk 1] /\
    sent w' = [tasks_request; patch_request "1" 1; tasks_request].
Proof.
  cbv zeta.
  split; [ reflexivity | split; [ reflexivity | split; [ reflexivity | ] ] ].
  split; [ reflexivity | split; [ reflexivity | ] ].
  destruct (toggle_patches_then_reloads
              (mkWorld (with_task_list [buy_milk_row 0] full_page)
                 initial_lastSavedNotes [] [tasks_request]
                 [Resolve (buy_milk 1); Resolve (JArr [buy_milk 1])])
              [buy_milk_row 0] 0 (buy_milk_row 0) "1"
              (Resolve (buy_milk 1)) [Resolve (JArr [buy_milk 1])]
              eq_refl eq_refl eq_refl eq_refl eq_refl)
    as (_ & Hok & _).
  apply (Hok [buy_milk 1] [buy_milk_row 1] [] eq_refl).
  repeat constructor.
Defined.

(** C1 as stated fails when the reload itself fails.  The page is loaded
    while the server holds "Buy milk" unfinished; the user checks the box
    while the server is unreachable, so the PATCH and the GET of the reload
    are both rejected and the server still holds [finished = 0]: the
    listener returns normally, and the page shows the box checked. *)
Lemma toggle_failed_reload_shows_click :
  let server := [buy_milk 0] in
  let w := start full_page
             [Resolve (JArr server); Reject network_error; Reject network_error] in
  exists w1 w2,
    loadTasks w = (Normal tt, w1) /\
    displays w1 server /\
    toggle 0 w1 = (Normal tt, w2) /\
    sent w2 = [tasks_request; patch_request "1" 1; tasks_request] /\
    console w2 = [network_error; network_error] /\
    option_map (map checked) (task_list (document w2)) = Some [true] /\
    finished_flags server = [false] /\
    ~ displays w2 server.
Proof.
  cbv zeta. do 2 eexists.
  split; [ reflexivity | ].
  split; [ reflexivity | ].
  split; [ reflexivity | ].
  repeat (split; [ reflexivity | ]).
  unfold displays. simpl. discriminate.
Qed.

(* ================================================================== *)
(** ** Quote *)
(* ================================================================== *)

(** The whole of [loadQuote] on a page with both quote elements, for a
    request that settles. *)
Lemma loadQuote_run (category : string) (w : World) (r : Reply)
      (rest : list Reply) (text0 author0 : string) :
  quote_text (document w) = Some text0 ->
  quote_author (document w) = Some author0 ->
  network w = r :: rest ->
  loadQuote category w
  = (Normal tt,
     match quote_outcome r with
     | inr (shown, author) =>
         mkWorld (with_quote_author author (with_quote_text shown (document w)))
           (lastSavedNotes w) (console w)
           (sent w ++ [quote_request category]) rest
     | inl err =>
         mkWorld
           (with_quote_author "" (with_quote_text fallback_message (document w)))
           (lastSavedNotes w) (console w ++ [err])
           (sent w ++ [quote_request category]) rest
     end).
Proof.
  intros Htext Hauthor Hnet.
  destruct w as [ [ qt qa tl nt ab nx sb ] l c s n ]; simpl in *; subst.
  unfold loadQuote, try_catch, bind, axios; simpl.
  destruct r as [ d | e ]; [ | reflexivity ].
  destruct (nullish d) eqn:Hd.
  - destruct d; try discriminate Hd; reflexivity.
  - unfold quote_outcome. rewrite get_prop_not_nullish by exact Hd.
    simpl. rewrite !prop_not_nullish by exact Hd.
    unfold ret, to_string, lift, set_quoteTextEl_textContent,
      set_quoteAuthorEl_textContent, console_error, modify, quoteText_of,
      quoteAuthor_of; simpl.
    destruct (ToString
                (get_prop_opt d "quote" ?? get_prop_opt d "text" ?? JStr ""))
      as [ shown | e ]; [ | reflexivity ].
    simpl.
    destruct (textContent_of
                (get_prop_opt d "author" ?? get_prop_opt d "name" ?? JStr ""))
      as [ author | e ]; reflexivity.
Qed.

Lemma quote_outcome_shown (d : JsVal) (shown author : string) :
  nullish d = false ->
  ToString (quoteText_of d) = inl shown ->
  ToString (quoteAuthor_of d) = inl author ->
  quote_outcome (Resolve d) = inr (quoted shown, author).
Proof.
  intros Hd Hshown Hname.
  unfold quote_outcome. rewrite get_prop_not_nullish by exact Hd.
  rewrite Hshown.
  rewrite textContent_of_not_nullish by apply nullish_coalesce_str.
  now rewrite Hname.
Qed.

(** C2 (as the code has it): on a page that has both quote elements,
    [loadQuote] never throws; whenever the request is rejected or the [try]
    block throws (the response body is [null] or [undefined], or a picked
    value does not convert to a string), it writes the fixed fallback
    message to the quote text, clears the author, logs the error and
    returns normally; any other response body is not a failure: the quote
    picked from it is shown and nothing is logged. *)
Theorem loadQuote_fallback (category : string) (w : World)
        (text0 author0 : string) :
  quote_text (document w) = Some text0 ->
  quote_author (document w) = Some author0 ->
  (forall c w', loadQuote category w = (c, w') -> forall e, c <> Throw e) /\
  (forall r rest err,
      network w = r :: rest ->
      quote_outcome r = inl err ->
      exists w',
        loadQuote category w = (Normal tt, w') /\
        quote_text (document w') = Some fallback_message /\
        quote_author (document w') = Some "" /\
        console w' = console w ++ [err]) /\
  (forall r rest shown author,
      network w = r :: rest ->
      quote_outcome r = inr (shown, author) ->
      exists w',
        loadQuote category w = (Normal tt, w') /\
        quote_text (document w') = Some shown /\
        quote_author (document w') = Some author /\
        console w' = console w).
Proof.
  intros Htext Hauthor. split; [ | split ].
  - intros c w' Hrun e.
    destruct (network w) as [ | r rest ] eqn:Hnet.
    + revert Hrun. unfold loadQuote, try_catch, bind at 1, axios.
      rewrite Hnet. intros Hrun; inversion Hrun. discriminate.
    + rewrite (loadQuote_run category w r rest text0 author0) in Hrun
        by assumption.
      inversion Hrun. discriminate.
  - intros r rest err Hnet Hfail. eexists. split.
    + apply (loadQuote_run category w r rest text0 author0); assumption.
    + rewrite Hfail. repeat split.
  - intros r rest shown author Hnet Hshown. eexists. split.
    + apply (loadQuote_run category w r rest text0 author0); assumption.
    + rewrite Hshown. repeat split.
Qed.

Lemma loadQuote_fallback_witness :
  let w := start full_page [Resolve JNull] in
  quote_text (document w) = Some "" /\
  quote_author (document w) = Some "" /\
  exists w',
    loadQuote "general" w = (Normal tt, w') /\
    quote_text (document w') = Some fallback_message /\
    quote_author (document w') = Some "" /\
    console w'
    = [type_error "Cannot read properties of null (reading 'quote')"].
Proof.
  cbv zeta.
  split; [ reflexivity | split; [ reflexivity | ] ].
  exact (proj1 (proj2 (loadQuote_fallback "general"
                         (start full_page [Resolve JNull])
                         "" "" eq_refl eq_refl))
           (Resolve JNull) [] _ eq_refl eq_refl).
Defined.

(** C2 as stated fails twice.  On a page without the [#quote-text] element
    a rejected request makes the [catch] block itself throw: [loadQuote]
    ends by throwing a TypeError and nothing is logged.  And with both
    elements present, a body that is no quote object at all (here a string)
    is not treated as a failure: the page shows an empty quotation, not the
    fallback message, and nothing is logged. *)
Lemma loadQuote_not_always_fallback :
  (let w := start (mkDocument None (Some "") (Some []) (Some "") (Some false)
                     (Some "") (Some true))
              [Reject network_error] in
   exists w',
     loadQuote "general" w = (Throw (null_set_error "textContent"), w') /\
     console w' = []) /\
  (let w := start full_page [Resolve (JStr "<!doctype html>")] in
   exists w',
     loadQuote "general" w = (Normal tt, w') /\
     quote_text (document w') = Some (quoted "") /\
     quote_text (document w') <> Some fallback_message /\
     console w' = []).
Proof.
  cbv zeta. split; eexists.
  - split; reflexivity.
  - split; [ reflexivity | ].
    split; [ reflexivity | ].
    split; [ discriminate | reflexivity ].
Qed.

(** The quotation marks are the character 34, one on each side. *)
Lemma quoted_marks (s : string) :
  quoted s = String (ascii_of_nat 34) (s ++ String (ascii_of_nat 34) "").
Proof. reflexivity. Qed.

(** C8 (as the code has it): for a resolved request whose body is not
    [null]/[undefined] and whose two picked values convert to strings (as
    every string, number and boolean does), on a page with both quote
    elements, [loadQuote] shows as quote text the [quote] field, else the
    [text] field, else the empty string, between two double-quote
    characters (character 34), and as author the [author] field, else the
    [name] field, else the empty string ([shown] and [author] are these
    picks as strings).  When both fields of a pair are missing (or [null])
    what is shown for that pair is the empty string: two double-quote
    characters with nothing between them for the text, nothing for the
    author. *)
Theorem loadQuote_displays (category : string) (w : World) (d : JsVal)
        (rest : list Reply) (text0 author0 shown author : string) :
  quote_text (document w) = Some text0 ->
  quote_author (document w) = Some author0 ->
  network w = Resolve d :: rest ->
  nullish d = false ->
  ToString (get_prop_opt d "quote" ?? get_prop_opt d "text" ?? JStr "")
  = inl shown ->
  ToString (get_prop_opt d "author" ?? get_prop_opt d "name" ?? JStr "")
  = inl author ->
  exists w',
    loadQuote category w = (Normal tt, w') /\
    quote_text (document w')
    = Some (String (ascii_of_nat 34) (shown ++ String (ascii_of_nat 34) "")) /\
    quote_author (document w') = Some author /\
    (nullish (get_prop_opt d "quote") = true ->
     nullish (get_prop_opt d "text") = true ->
     shown = "" /\
     quote_text (document w')
     = Some (String (ascii_of_nat 34) (String (ascii_of_nat 34) ""))) /\
    (nullish (get_prop_opt d "author") = true ->
     nullish (get_prop_opt d "name") = true ->
     author = "" /\ quote_author (document w') = Some "") /\
    console w' = console w.
Proof.
  intros Htext Hauthor Hnet Hd Hshown Hname.
  pose proof (quote_outcome_shown d shown author Hd Hshown Hname) as Hout.
  eexists. split.
  - apply (loadQuote_run category w (Resolve d) rest text0 author0);
      assumption.
  - rewrite Hout. simpl.
    split; [ apply f_equal; apply quoted_marks | ].
    split; [ reflexivity | split; [ | split ] ].
    + intros Hq Ht. unfold coalesce in Hshown. rewrite Hq, Ht in Hshown.
      injection Hshown as <-. split; reflexivity.
    + intros Ha Hn. unfold coalesce in Hname. rewrite Ha, Hn in Hname.
      injection Hname as <-. split; reflexivity.
    + reflexivity.
Qed.

Lemma loadQuote_displays_witness :
  let d := JObj [("text", JStr "Be kind."); ("name", JStr "Anon")] in
  let w := start full_page [Resolve d] in
  quote_text (document w) = Some "" /\
  quote_author (document w) = Some "" /\
  network w = [Resolve d] /\
  nullish d = false /\
  exists w',
    loadQuote "general" w = (Normal tt, w') /\
    quote_text (document w')
    = Some (String (ascii_of_nat 34)
              ("Be kind." ++ String (ascii_of_nat 34) "")) /\
    quote_author (document w') = Some "Anon".
Proof.
  cbv zeta.
  split; [ reflexivity | split; [ reflexivity | ] ].
  split; [ reflexivity | split; [ reflexivity | ] ].
  destruct (loadQuote_displays "general"
              (start full_page
                 [Resolve (JObj [("text", JStr "Be kind."); ("name", JStr "Anon")])])
              (JObj [("text", JStr "Be kind."); ("name", JStr "Anon")])
              [] "" "" "Be kind." "Anon"
              eq_refl eq_refl eq_refl eq_refl eq_refl eq_refl)
    as (w' & Hrun & Htext & Hauthor & _).
  exists w'. split; [ exact Hrun | split; [ exact Htext | exact Hauthor ] ].
Defined.

(** C8 as stated fails for two resolved responses, on a page with both
    quote elements.  A body that is [null] makes [data.quote] throw: the
    fallback message is shown, not an empty quotation.  A body with a quote
    and an author that cannot be converted to a string has its quote
    written first and then replaced by the fallback message when the author
    assignment throws: the [quote] field is not what is displayed. *)
Lemma loadQuote_resolved_not_always_displayed :
  (let w := start full_page [Resolve JNull] in
   exists w',
     loadQuote "general" w = (Normal tt, w') /\
     quote_text (document w') = Some fallback_message /\
     quote_text (document w')
     <> Some (String (ascii_of_nat 34) (String (ascii_of_nat 34) ""))) /\
  (let w := start full_page
              [Resolve (JObj [("quote", JStr "Be kind."); ("author", unprintable)])] in
   exists w',
     loadQuote "general" w = (Normal tt, w') /\
     quote_text (document w') = Some fallback_message /\
     quote_text (document w')
     <> Some (String (ascii_of_nat 34)
                ("Be kind." ++ String (ascii_of_nat 34) "")) /\
     quote_author (document w') = Some "" /\
     console w' = [cannot_convert]).
Proof.
  cbv zeta. split; eexists.
  - split; [ reflexivity | ]. split; [ reflexivity | discriminate ].
  - split; [ reflexivity | ]. split; [ reflexivity | ].
    split; [ discriminate | split; reflexivity ].
Qed.

(** C9: the first variant of each pair wins whenever it is not
    [null]/[undefined], whatever the second variant holds; in particular a
    first variant that is the empty string is shown as such.  The second
    variant is used only when the first is [null] or [undefined]. *)
Theorem loadQuote_precedence (category : string) (w : World) (d : JsVal)
        (rest : list Reply) (text0 author0 shown author : string) :
  quote_text (document w) = Some text0 ->
  quote_author (document w) = Some author0 ->
  network w = Resolve d :: rest ->
  nullish d = false ->
  ToString (quoteText_of d) = inl shown ->
  ToString (quoteAuthor_of d) = inl author ->
  let quote := get_prop_opt d "quote" in
  let text := get_prop_opt d "text" in
  let first_author := get_prop_opt d "author" in
  let name := get_prop_opt d "name" in
  exists w',
    loadQuote category w = (Normal tt, w') /\
    quote_text (document w') = Some (quoted shown) /\
    quote_author (document w') = Some author /\
    (nullish quote = false -> ToString quote = inl shown) /\
    (quote = JStr "" -> shown = "") /\
    (nullish quote = true -> ToString (text ?? JStr "") = inl shown) /\
    (nullish first_author = false -> ToString first_author = inl author) /\
    (first_author = JStr "" -> author = "") /\
    (nullish first_author = true -> ToString (name ?? JStr "") = inl author).
Proof.
  intros Htext Hauthor Hnet Hd Hshown Hname quote text first_author name.
  pose proof (quote_outcome_shown d shown author Hd Hshown Hname) as Hout.
  eexists. split.
  { apply (loadQuote_run category w (Resolve d) rest text0 author0);
      assumption. }
  rewrite Hout. simpl.
  split; [ reflexivity | split; [ reflexivity | ] ].
  unfold quoteText_of in Hshown. unfold quoteAuthor_of in Hname.
  fold quote text in Hshown. fold first_author name in Hname.
  repeat split.
  - intros Hq. unfold coalesce at 1 in Hshown. now rewrite Hq in Hshown.
  - intros Hq. rewrite Hq in Hshown. simpl in Hshown. now injection Hshown.
  - intros Hq. unfold coalesce at 1 in Hshown. now rewrite Hq in Hshown.
  - intros Ha. unfold coalesce at 1 in Hname. now rewrite Ha in Hname.
  - intros Ha. rewrite Ha in Hname. simpl in Hname. now injection Hname.
  - intros Ha. unfold coalesce at 1 in Hname. now rewrite Ha in Hname.
Qed.

Lemma loadQuote_precedence_witness :
  let d := JObj [("quote", JStr ""); ("text", JStr "Be kind.");
                 ("author", JStr "Anon"); ("name", JStr "Nobody")] in
  let w := start full_page [Resolve d] in
  quote_text (document w) = Some "" /\
  quote_author (document w) = Some "" /\
  network w = [Resolve d] /\
  nullish d = false /\
  ToString (quoteText_of d) = inl "" /\
  ToString (quoteAuthor_of d) = inl "Anon" /\
  exists w',
    loadQuote "general" w = (Normal tt, w') /\
    quote_text (document w') = Some (quoted "") /\
    quote_author (document w') = Some "Anon".
Proof.
  cbv zeta.
  split; [ reflexivity | split; [ reflexivity | ] ].
  split; [ reflexivity | split; [ reflexivity | ] ].
  split; [ reflexivity | split; [ reflexivity | ] ].
  destruct (loadQuote_precedence "general"
              (start full_page
                 [Resolve (JObj [("quote", JStr ""); ("text", JStr "Be kind.");
                                 ("author", JStr "Anon"); ("name", JStr "Nobody")])])
              (JObj [("quote", JStr ""); ("text", JStr "Be kind.");
                     ("author", JStr "Anon"); ("name", JStr "Nobody")])
              [] "" "" "" "Anon"
              eq_refl eq_refl eq_refl eq_refl eq_refl eq_refl)
    as (w' & Hrun & Htext & Hauthor & _).
  exists w'. split; [ exact Hrun | split; [ exact Htext | exact Hauthor ] ].
Defined.

(* ================================================================== *)
(** ** Notes *)
(* ================================================================== *)




(** C4: after an input event on the textarea, on a page with a save
    button, the button is enabled exactly when the textarea's value is not
    strictly equal to [lastSavedNotes]; the event changes neither the text
    nor the baseline. *)
Theorem edit_notes_dirty_flag (w : World) (value old : string) (btn : bool) :
  notes_text (document w) = Some old ->
  save_notes_btn (document w) = Some btn ->
  exists w' disabled,
    edit_notes value w = (Normal tt, w') /\
    notes_text (document w') = Some value /\
    lastSavedNotes w' = lastSavedNotes w /\
    save_notes_btn (document w') = Some disabled /\
    (disabled = false <-> JStr value <> lastSavedNotes w).
Proof.
  intros Hold Hbtn.
  destruct w as [ [ qt qa tl nt ab nx sb ] l c s n ]; simpl in *; subst.
  unfold edit_notes, notes_input, setSaveNotesEnabled; simpl.
  do 2 eexists. split; [ reflexivity | ]. simpl.
  repeat split.
  - intros Hen Heq. apply strict_eq_str_spec in Heq.
    rewrite Heq in Hen. discriminate Hen.
  - intros Hneq. destruct (strict_eq_str value l) eqn:Heq; [ | reflexivity ].
    apply strict_eq_str_spec in Heq. contradiction.
Qed.

Lemma edit_notes_dirty_flag_witness :
  let w := mkWorld (with_notes_text "hello" full_page) (JStr "hello") [] [] [] in
  notes_text (document w) = Some "hello" /\
  save_notes_btn (document w) = Some true /\
  exists w' disabled,
    edit_notes "hello!" w = (Normal tt, w') /\
    notes_text (document w') = Some "hello!" /\
    lastSavedNotes w' = JStr "hello" /\
    save_notes_btn (document w') = Some disabled /\
    (disabled = false <-> JStr "hello!" <> JStr "hello").
Proof.
  cbv zeta. split; [ reflexivity | split; [ reflexivity | ] ].
  exact (edit_notes_dirty_flag
           (mkWorld (with_notes_text "hello" full_page) (JStr "hello") [] [] [])
           "hello!" "hello" true eq_refl eq_refl).
Defined.

(* ================================================================== *)
(** ** Task list: what a reload renders *)
(* ================================================================== *)

Lemma rows_of_exists (tasks : list JsVal) :
  Forall (fun t => row_of t <> None) tasks -> exists rs, rows_of tasks rs.
Proof.
  induction 1 as [ | t ts Ht _ (rs & IH) ].
  - exists []. constructor.
  - destruct (row_of t) as [ r | ] eqn:Hrow; [ | contradiction ].
    exists (r :: rs). constructor; assumption.
Qed.

Lemma rows_of_tasks (tasks : list JsVal) (rs : list Row) :
  rows_of tasks rs -> map task rs = tasks.
Proof.
  induction 1 as [ | t r ts rs Hrow _ IH ]; simpl; [ reflexivity | ].
  rewrite IH. f_equal.
  revert Hrow. unfold row_of.
  destruct (nullish t); [ discriminate | ].
  destruct (textContent_of (get_prop_opt t "task")); [ | discriminate ].
  intros H; injection H as <-. reflexivity.
Qed.

Lemma row_of_none_throws (t : JsVal) (w : World) :
  row_of t = None -> exists e, render_row t w = (Throw e, w).
Proof.
  intros Hnone.
  destruct (render_row_cases t w) as [ Hthrow | (r & Hrow & _) ].
  - exact Hthrow.
  - rewrite Hnone in Hrow. discriminate Hrow.
Qed.

Lemma for_each_app (f : JsVal -> Js unit) (xs ys : list JsVal) (w : World) :
  for_each f (xs ++ ys) w = (for_each f xs ;; for_each f ys) w.
Proof.
  revert w. induction xs as [ | x xs IH ]; intros w; simpl.
  - reflexivity.
  - unfold bind. destruct (f x w) as [ [ [] | e | ] w1 ]; try reflexivity.
    rewrite IH. reflexivity.
Qed.

(** X1: when the GET resolves with an array of task objects, the container
    ends up holding exactly one row per fetched task, in the order the
    server gave them, each closing over its own task and checked iff
    [finished === 1]; what the container held before plays no part, nothing
    is logged and no other control changes. *)
Theorem loadTasks_renders_in_server_order (w : World) (before : list Row)
        (tasks : list JsVal) (rest : list Reply) :
  task_list (document w) = Some before ->
  network w = Resolve (JArr tasks) :: rest ->
  Forall (fun t => row_of t <> None) tasks ->
  exists w' rs,
    loadTasks w = (Normal tt, w') /\
    task_list (document w') = Some rs /\
    map task rs = tasks /\
    map checked rs = finished_flags tasks /\
    List.length rs = List.length tasks /\
    console w' = console w /\
    same_controls (document w) (document w').
Proof.
  intros Hbefore Hnet Hall.
  destruct (rows_of_exists tasks Hall) as (rs & Hrs).
  eexists. exists rs. split.
  - apply (loadTasks_resolved w tasks rs rest before); assumption.
  - simpl. split; [ reflexivity | ].
    split; [ apply rows_of_tasks; exact Hrs | ].
    split; [ apply rows_of_checked; exact Hrs | ].
    split.
    + pose proof (rows_of_tasks tasks rs Hrs) as Hmap.
      apply (f_equal (@List.length JsVal)) in Hmap.
      now rewrite length_map in Hmap.
    + repeat split.
Qed.

Lemma loadTasks_renders_in_server_order_witness :
  let tasks := [buy_milk 1; JObj [("id", JNum 2); ("task", JStr "Walk")]] in
  let w := mkWorld (with_task_list [buy_milk_row 0; buy_milk_row 0; buy_milk_row 0]
                      full_page)
             initial_lastSavedNotes [] [] [Resolve (JArr tasks)] in
  exists w' rs,
    loadTasks w = (Normal tt, w') /\
    task_list (document w') = Some rs /\
    map task rs = tasks /\
    map checked rs = [true; false].
Proof.
  cbv zeta.
  destruct (loadTasks_renders_in_server_order
              (mkWorld (with_task_list
                          [buy_milk_row 0; buy_milk_row 0; buy_milk_row 0]
                          full_page)
                 initial_lastSavedNotes [] []
                 [Resolve (JArr [buy_milk 1;
                                 JObj [("id", JNum 2); ("task", JStr "Walk")]])])
              [buy_milk_row 0; buy_milk_row 0; buy_milk_row 0]
              [buy_milk 1; JObj [("id", JNum 2); ("task", JStr "Walk")]]
              [] eq_refl eq_refl)
    as (w' & rs & Hrun & Hlist & Htasks & Hchecked & _).
  { repeat constructor; discriminate. }
  exists w', rs. repeat split; assumption.
Defined.

(** X2: when the GET resolves with a body that is not an array, on a page
    with the container, [loadTasks] still returns normally, but the list
    has already been emptied when [forEach] fails: the old rows are gone
    and one TypeError is logged. *)
Theorem loadTasks_body_not_array (w : World) (before : list Row) (d : JsVal)
        (rest : list Reply) :
  task_list (document w) = Some before ->
  network w = Resolve d :: rest ->
  is_array d = false ->
  exists w' message,
    loadTasks w = (Normal tt, w') /\
    task_list (document w') = Some [] /\
    console w' = console w ++ [JError "TypeError" message] /\
    sent w' = sent w ++ [tasks_request].
Proof.
  intros Hbefore Hnet Harr.
  unfold loadTasks, try_catch, fetchTasks, bind, axios. rewrite Hnet. simpl.
  unfold ret, renderTaskList. simpl. rewrite Hbefore.
  unfold bind, modify, forEach, throw, console_error, modify.
  destruct d; try discriminate Harr; simpl;
    do 2 eexists; (split; [ reflexivity | ]); repeat split.
Qed.

Lemma loadTasks_body_not_array_witness :
  let w := mkWorld (with_task_list [buy_milk_row 1] full_page)
             initial_lastSavedNotes [] []
             [Resolve (JObj [("error", JStr "boom")])] in
  exists w' message,
    loadTasks w = (Normal tt, w') /\
    task_list (document w') = Some [] /\
    console w' = [JError "TypeError" message].
Proof.
  cbv zeta.
  destruct (loadTasks_body_not_array
              (mkWorld (with_task_list [buy_milk_row 1] full_page)
                 initial_lastSavedNotes [] []
                 [Resolve (JObj [("error", JStr "boom")])])
              [buy_milk_row 1] (JObj [("error", JStr "boom")]) []
              eq_refl eq_refl eq_refl)
    as (w' & e & Hrun & Hlist & Hlog & _).
  exists w', e. repeat split; assumption.
Defined.

(** X3: rendering stops at the first element that is no task object
    ([null], or one whose label cannot be shown): the rows of the tasks
    before it are on the page, those after it are not, the error is logged
    and [loadTasks] returns normally. *)
Theorem loadTasks_stops_at_bad_task (w : World) (before : list Row)
        (good : list JsVal) (bad : JsVal) (more : list JsVal)
        (rs : list Row) (rest : list Reply) :
  task_list (document w) = Some before ->
  network w = Resolve (JArr (good ++ bad :: more)) :: rest ->
  rows_of good rs ->
  row_of bad = None ->
  exists w' e,
    loadTasks w = (Normal tt, w') /\
    task_list (document w') = Some rs /\
    console w' = console w ++ [e].
Proof.
  intros Hbefore Hnet Hgood Hbad.
  unfold loadTasks, try_catch, fetchTasks, bind at 1 2, axios.
  rewrite Hnet. simpl. unfold ret, renderTaskList. simpl. rewrite Hbefore.
  unfold bind at 1, modify at 1, forEach.
  rewrite for_each_app. unfold bind at 1.
  rewrite (for_each_render_ok good rs Hgood _ []) by reflexivity.
  simpl. unfold bind at 1.
  match goal with
  | |- context [ render_row bad ?w1 ] =>
      destruct (row_of_none_throws bad w1 Hbad) as (e & ->)
  end.
  unfold console_error, modify.
  do 2 eexists. split; [ reflexivity | ]. simpl. split; reflexivity.
Qed.

Lemma loadTasks_stops_at_bad_task_witness :
  let w := start full_page
             [Resolve (JArr ([buy_milk 1] ++ JNull :: [buy_milk 0]))] in
  rows_of [buy_milk 1] [buy_milk_row 1] /\
  row_of JNull = None /\
  exists w' e,
    loadTasks w = (Normal tt, w') /\
    task_list (document w') = Some [buy_milk_row 1] /\
    console w' = [e].
Proof.
  cbv zeta.
  assert (rows_of [buy_milk 1] [buy_milk_row 1]) as Hgood
    by (repeat constructor).
  split; [ exact Hgood | split; [ reflexivity | ] ].
  destruct (loadTasks_stops_at_bad_task
              (start full_page
                 [Resolve (JArr ([buy_milk 1] ++ JNull :: [buy_milk 0]))])
              [] [buy_milk 1] JNull [buy_milk 0] [buy_milk_row 1] []
              eq_refl eq_refl Hgood eq_refl)
    as (w' & e & Hrun & Hlist & Hlog).
  exists w', e. repeat split; assumption.
Defined.

(* ================================================================== *)
(** ** Task list: the change listener and the add form *)
(* ================================================================== *)

(** X4: the change listener of a checkbox never throws, whatever task it
    closes over and whatever the network answers; it leaves every control
    outside the task list and [lastSavedNotes] alone, and the last request
    it sends is the GET of the reload, preceded by at most one PATCH. *)
Theorem checkbox_change_never_throws (t : JsVal) (target_checked : bool)
        (w w' : World) (c : Completion unit) :
  checkbox_change t target_checked w = (c, w') ->
  (forall e, c <> Throw e) /\
  same_controls (document w) (document w') /\
  lastSavedNotes w' = lastSavedNotes w /\
  (sent w' = sent w ++ [tasks_request] \/
   (exists patch, method patch = PATCH /\ sent w' = sent w ++ [patch]) \/
   (exists patch, method patch = PATCH /\
                  sent w' = sent w ++ [patch; tasks_request])).
Proof.
  unfold checkbox_change, try_catch, bind, patchTaskFinished, prop, to_string,
    lift, ret, throw, bind, axios, console_error, modify.
  destruct (get_prop t "id") as [ id | e0 ]; simpl.
  - destruct (ToString id) as [ id_text | e1 ]; simpl.
    + destruct (network w) as [ | [ d | e2 ] rest ]; simpl; intros H.
      * inversion H; subst; clear H. simpl.
        repeat split; try discriminate.
        right. left. eexists. split; [ | reflexivity ]. reflexivity.
      * apply loadTasks_frame in H. simpl in H.
        destruct H as (Hc & Hd & Hl & Hs & _).
        repeat split; try assumption; try apply Hd.
        right. right. eexists. split; [ | rewrite Hs, <- app_assoc; reflexivity ].
        reflexivity.
      * apply loadTasks_frame in H. simpl in H.
        destruct H as (Hc & Hd & Hl & Hs & _).
        repeat split; try assumption; try apply Hd.
        right. right. eexists. split; [ | rewrite Hs, <- app_assoc; reflexivity ].
        reflexivity.
    + intros H. apply loadTasks_frame in H. simpl in H.
      destruct H as (Hc & Hd & Hl & Hs & _).
      repeat split; try assumption; try apply Hd. now left.
  - intros H. apply loadTasks_frame in H. simpl in H.
    destruct H as (Hc & Hd & Hl & Hs & _).
    repeat split; try assumption; try apply Hd. now left.
Qed.

Lemma checkbox_change_never_throws_witness :
  let w := start full_page [Reject network_error; Resolve JNull] in
  exists c w',
    checkbox_change (buy_milk 0) true w = (c, w') /\
    (forall e, c <> Throw e) /\ lastSavedNotes w' = lastSavedNotes w.
Proof.
  cbv zeta.
  destruct (checkbox_change (buy_milk 0) true
              (start full_page [Reject network_error; Resolve JNull]))
    as [ c w' ] eqn:Hrun.
  exists c, w'. split; [ reflexivity | ].
  destruct (checkbox_change_never_throws (buy_milk 0) true
              (start full_page [Reject network_error; Resolve JNull]) w' c Hrun)
    as (Hc & _ & Hl & _).
  split; assumption.
Defined.

(** X5: when the id of the task cannot be put into the URL (it does not
    convert to a string), no PATCH is sent at all: the TypeError is logged
    and the listener goes straight to the reload. *)
Theorem checkbox_change_unusable_id (t : JsVal) (target_checked : bool)
        (w : World) (e : JsVal) :
  nullish t = false ->
  ToString (get_prop_opt t "id") = inr e ->
  checkbox_change t target_checked w
  = loadTasks (with_console (console w ++ [e]) w).
Proof.
  intros Ht Hid.
  unfold checkbox_change, try_catch, bind.
  rewrite prop_not_nullish by exact Ht.
  unfold ret, patchTaskFinished, to_string, bind. rewrite Hid.
  reflexivity.
Qed.

Lemma checkbox_change_unusable_id_witness :
  let t := JObj [("id", JObj [("toString", JNum 1)]); ("task", JStr "x")] in
  let w := start full_page [Resolve (JArr [])] in
  nullish t = false /\
  ToString (get_prop_opt t "id") = inr cannot_convert /\
  checkbox_change t true w
  = loadTasks (with_console (console w ++ [cannot_convert]) w).
Proof.
  cbv zeta. split; [ reflexivity | split; [ reflexivity | ] ].
  apply (checkbox_change_unusable_id
           (JObj [("id", JObj [("toString", JNum 1)]); ("task", JStr "x")])
           true (start full_page [Resolve (JArr [])]) cannot_convert);
    reflexivity.
Defined.

(** X6: when the input does not trim to the empty string and the POST
    resolves, the request body carries the trimmed text, the input is
    cleared, the add button is enabled again, nothing is logged, and
    [handleAddTask] goes on with [loadTasks]; after that reload the input is
    still empty and the button still enabled. *)
Theorem handleAddTask_posted (w : World) (raw : string) (d : JsVal)
        (rest : list Reply) :
  new_task (document w) = Some raw ->
  trim raw <> "" ->
  network w = Resolve d :: rest ->
  let w1 := after_post w raw rest in
  handleAddTask w = loadTasks w1 /\
  new_task (document w1) = Some "" /\
  console w1 = console w /\
  forall c w',
    handleAddTask w = (c, w') ->
    new_task (document w') = Some "" /\
    add_task_btn (document w')
      = option_map (fun _ => false) (add_task_btn (document w)) /\
    sent w' = sent w ++ [post_request (trim raw); tasks_request].
Proof.
  intros Hraw Hfilled Hnet w1.
  assert (handleAddTask w = loadTasks w1) as Hrun.
  { unfold handleAddTask. rewrite Hraw.
    destruct (Nat.eqb (String.length (trim raw)) 0) eqn:Hlen.
    - apply length_zero_iff_empty in Hlen. contradiction.
    - unfold bind, try_finally, try_catch, set_addBtn_disabled, modify,
        postNewTask, bind, axios, ret, modify.
      simpl. rewrite Hnet. simpl.
      unfold w1, after_post.
      destruct w as [ dd l c s n ]; destruct dd; simpl in *.
      destruct add_task_btn0; reflexivity. }
  assert (new_task (document w1) = Some "") as Hinput.
  { unfold w1, after_post; simpl.
    destruct (add_task_btn (document w)); reflexivity. }
  assert (add_task_btn (document w1)
          = option_map (fun _ => false) (add_task_btn (document w))) as Hbtn.
  { unfold w1, after_post; simpl.
    destruct (add_task_btn (document w)) eqn:Hb; simpl; [ reflexivity | exact Hb ]. }
  split; [ exact Hrun | split; [ exact Hinput | split; [ reflexivity | ] ] ].
  intros c w' H. rewrite Hrun in H. apply loadTasks_frame in H.
  destruct H as (_ & Hsame & _ & Hsent & _).
  destruct Hsame as (_ & _ & Hnew & Hadd & _).
  split; [ now rewrite Hnew | split; [ now rewrite Hadd | ] ].
  rewrite Hsent. unfold w1, after_post; simpl. now rewrite <- app_assoc.
Qed.

Lemma handleAddTask_posted_witness :
  let w := start (with_add_task_btn true (with_new_task "  Buy milk " full_page))
             [Resolve (buy_milk 0); Resolve (JArr [buy_milk 0])] in
  new_task (document w) = Some "  Buy milk " /\
  trim "  Buy milk " <> "" /\
  handleAddTask w
  = loadTasks (after_post w "  Buy milk " [Resolve (JArr [buy_milk 0])]) /\
  post_request (trim "  Buy milk ") = post_request "Buy milk".
Proof.
  cbv zeta.
  assert (trim "  Buy milk " <> "") as Hfilled by (vm_compute; discriminate).
  split; [ reflexivity | split; [ exact Hfilled | split; [ | reflexivity ] ] ].
  exact (proj1 (handleAddTask_posted
                  (start (with_add_task_btn true
                            (with_new_task "  Buy milk " full_page))
                     [Resolve (buy_milk 0); Resolve (JArr [buy_milk 0])])
                  "  Buy milk " (buy_milk 0) [Resolve (JArr [buy_milk 0])]
                  eq_refl Hfilled eq_refl)).
Defined.

(** X7: [handleAddTask] never throws, on any page and whatever the network
    answers; it never touches the quote elements, the textarea, the save
    button or [lastSavedNotes], and it never removes or adds an element. *)
Theorem handleAddTask_never_throws (w w' : World) (c : Completion unit) :
  handleAddTask w = (c, w') ->
  (forall e, c <> Throw e) /\
  same_but_tasks (document w) (document w') /\
  is_some (new_task (document w')) = is_some (new_task (document w)) /\
  is_some (add_task_btn (document w')) = is_some (add_task_btn (document w)) /\
  lastSavedNotes w' = lastSavedNotes w.
Proof.
  unfold handleAddTask.
  destruct (new_task (document w)) as [ raw | ] eqn:Hraw.
  2:{ intros H; inversion H; subst. rewrite Hraw.
      repeat split; discriminate. }
  destruct (Nat.eqb (String.length (trim raw)) 0).
  { intros H; inversion H; subst. rewrite Hraw.
    repeat split; discriminate. }
  unfold bind, try_finally, try_catch, set_addBtn_disabled, modify,
    postNewTask, bind, axios, ret, console_error, modify.
  simpl.
  destruct w as [ [ qt qa tl nt ab nx sb ] l cs s n ]; simpl in *; subst.
  destruct n as [ | [ d | e ] rest ]; simpl.
  - intros H; inversion H; subst; clear H.
    destruct ab; simpl; repeat split; discriminate.
  - destruct ab; simpl; intros H; apply loadTasks_frame in H; simpl in H;
      destruct H as (Hc & (Hqt & Hqa & Hnew & Hadd & Hnx & Hsb) & Hl & _);
      simpl in *;
      (split; [ exact Hc | ]);
      (split; [ repeat split; assumption | ]);
      rewrite Hnew, Hadd; repeat split; assumption.
  - destruct ab; simpl; intros H; apply loadTasks_frame in H; simpl in H;
      destruct H as (Hc & (Hqt & Hqa & Hnew & Hadd & Hnx & Hsb) & Hl & _);
      simpl in *;
      (split; [ exact Hc | ]);
      (split; [ repeat split; assumption | ]);
      rewrite Hnew, Hadd; repeat split; assumption.
Qed.

Lemma handleAddTask_never_throws_witness :
  let w := start (with_new_task "x" full_page) [Reject network_error; Resolve JNull] in
  exists c w',
    handleAddTask w = (c, w') /\
    (forall e, c <> Throw e) /\ lastSavedNotes w' = lastSavedNotes w.
Proof.
  cbv zeta.
  destruct (handleAddTask
              (start (with_new_task "x" full_page)
                 [Reject network_error; Resolve JNull]))
    as [ c w' ] eqn:Hrun.
  exists c, w'. split; [ reflexivity | ].
  destruct (handleAddTask_never_throws
              (start (with_new_task "x" full_page)
                 [Reject network_error; Resolve JNull]) w' c Hrun)
    as (Hc & _ & _ & _ & Hl).
  split; assumption.
Defined.

(** X8: while the POST has not settled, [handleAddTask] has not returned
    and the [finally] block has not run: the add button (when the page has
    one) is disabled, the input still holds the typed text, and the POST
    is the only request sent. *)
Theorem handleAddTask_post_not_settled (w : World) (raw : string) :
  new_task (document w) = Some raw ->
  trim raw <> "" ->
  network w = [] ->
  exists w',
    handleAddTask w = (Pending, w') /\
    add_task_btn (document w')
      = option_map (fun _ => true) (add_task_btn (document w)) /\
    new_task (document w') = Some raw /\
    sent w' = sent w ++ [post_request (trim raw)].
Proof.
  intros Hraw Hfilled Hnet.
  unfold handleAddTask. rewrite Hraw.
  destruct (Nat.eqb (String.length (trim raw)) 0) eqn:Hlen.
  - apply length_zero_iff_empty in Hlen. contradiction.
  - unfold bind, try_finally, try_catch, set_addBtn_disabled, modify,
      postNewTask, bind, axios.
    simpl. rewrite Hnet.
    eexists. split; [ reflexivity | ]. simpl.
    destruct (add_task_btn (document w)) eqn:Hb; simpl;
      repeat split; assumption.
Qed.

Lemma handleAddTask_post_not_settled_witness :
  let w := start (with_new_task "Buy milk" full_page) [] in
  new_task (document w) = Some "Buy milk" /\
  trim "Buy milk" <> "" /\
  network w = [] /\
  exists w',
    handleAddTask w = (Pending, w') /\
    add_task_btn (document w') = Some true /\
    new_task (document w') = Some "Buy milk" /\
    sent w' = [post_request "Buy milk"].
Proof.
  cbv zeta.
  assert (trim "Buy milk" <> "") as Hfilled by (vm_compute; discriminate).
  split; [ reflexivity | split; [ exact Hfilled | split; [ reflexivity | ] ] ].
  exact (handleAddTask_post_not_settled
           (start (with_new_task "Buy milk" full_page) []) "Buy milk"
           eq_refl Hfilled eq_refl).
Defined.

(* ================================================================== *)
(** ** Notes: loading, saving and the dirty flag together *)
(* ================================================================== *)

Lemma textarea_value_lf (s : string) :
  textarea_value (String (ascii_of_nat 10) s)
  = String (ascii_of_nat 10) (textarea_value s).
Proof. reflexivity. Qed.

Lemma textarea_value_cr (c : ascii) (s : string) :
  Nat.eqb (nat_of_ascii c) 13 = true ->
  textarea_value (String c s)
  = String (ascii_of_nat 10)
      (match s with
       | String c' s' =>
           if Nat.eqb (nat_of_ascii c') 10 then textarea_value s'
           else textarea_value s
       | EmptyString => EmptyString
       end).
Proof.
  intros Hc. cbn [textarea_value]. rewrite Hc.
  destruct s as [ | c' s' ]; [ reflexivity | ].
  destruct (Nat.eqb (nat_of_ascii c') 10); reflexivity.
Qed.

Lemma textarea_value_other (c : ascii) (s : string) :
  Nat.eqb (nat_of_ascii c) 13 = false ->
  textarea_value (String c s) = String c (textarea_value s).
Proof. intros Hc. cbn [textarea_value]. now rewrite Hc. Qed.

(** The text a textarea reports is one it would report again. *)
Lemma textarea_value_idempotent (s : string) :
  textarea_value (textarea_value s) = textarea_value s.
Proof.
  enough (forall n s', String.length s' <= n ->
                       textarea_value (textarea_value s') = textarea_value s')
    as Hall by (apply (Hall (String.length s)); lia).
  induction n as [ | n IH ]; intros s' Hlen.
  - destruct s'; [ reflexivity | simpl in Hlen; lia ].
  - destruct s' as [ | c rest ]; [ reflexivity | ].
    simpl in Hlen.
    destruct (Nat.eqb (nat_of_ascii c) 13) eqn:Hc.
    + rewrite (textarea_value_cr c rest Hc), textarea_value_lf.
      f_equal.
      destruct rest as [ | c' rest' ]; [ reflexivity | ].
      simpl in Hlen.
      destruct (Nat.eqb (nat_of_ascii c') 10); apply IH; simpl; lia.
    + rewrite (textarea_value_other c rest Hc), (textarea_value_other _ _ Hc).
      f_equal. apply IH. lia.
Qed.

(** X9: when the GET of the notes resolves, on a page with the textarea,
    [loadNotes] sets [lastSavedNotes] to the [notes] field of the body, or
    to the empty string when the body has none.  When that value converts
    to a string, the textarea is given it and reports it with every CR LF
    and CR as LF, the save button is disabled and nothing is logged; a body
    without notes therefore empties the textarea.  When the value does not
    convert, the TypeError is logged and the textarea and the button stay
    as they were, although [lastSavedNotes] has been overwritten. *)
Theorem loadNotes_resolved (w : World) (old : string) (d : JsVal)
        (rest : list Reply) :
  notes_text (document w) = Some old ->
  network w = Resolve d :: rest ->
  exists w',
    loadNotes w = (Normal tt, w') /\
    sent w' = sent w ++ [notes_request] /\
    lastSavedNotes w' = notes_of d /\
    (forall shown,
        value_of (notes_of d) = inl shown ->
        notes_text (document w') = Some (textarea_value shown) /\
        save_notes_btn (document w')
        = option_map (fun _ => true) (save_notes_btn (document w)) /\
        console w' = console w) /\
    (forall e,
        value_of (notes_of d) = inr e ->
        document w' = document w /\
        console w' = console w ++ [e]) /\
    (nullish (get_prop_opt d "notes") = true ->
     lastSavedNotes w' = JStr "" /\
     notes_text (document w') = Some "").
Proof.
  intros Hold Hnet.
  destruct w as [ [ qt qa tl nt ab nx sb ] l c s n ]; simpl in *; subst.
  unfold loadNotes, try_catch, fetchNotes, bind, axios, modify,
    setSaveNotesEnabled, ret, lift, throw, console_error, modify; simpl.
  fold (notes_of d).
  destruct (value_of (notes_of d)) as [ shown | e ] eqn:Hvalue; simpl.
  - destruct sb as [ disabled | ]; simpl;
      eexists; (split; [ reflexivity | ]); simpl;
      (split; [ reflexivity | ]); (split; [ reflexivity | ]);
      (split; [ intros shown' Hs; injection Hs as <-; repeat split | ]);
      (split; [ intros e He; discriminate He | ]);
      intros Hnull; unfold notes_of, coalesce in *; rewrite Hnull in *;
      simpl in Hvalue; injection Hvalue as <-; split; reflexivity.
  - eexists. split; [ reflexivity | ]. simpl.
    split; [ reflexivity | ]. split; [ reflexivity | ].
    split; [ intros shown Hs; discriminate Hs | ].
    split; [ intros e' He; injection He as <-; split; reflexivity | ].
    intros Hnull. unfold notes_of, coalesce in Hvalue.
    rewrite Hnull in Hvalue. discriminate Hvalue.
Qed.

Lemma loadNotes_resolved_witness :
  let w := mkWorld (with_save_notes_btn false (with_notes_text "draft" full_page))
             (JStr "old") [] [] [Resolve (JObj [("notes", JStr two_lines_crlf)])] in
  notes_text (document w) = Some "draft" /\
  exists w',
    loadNotes w = (Normal tt, w') /\
    lastSavedNotes w' = JStr two_lines_crlf /\
    notes_text (document w') = Some two_lines_lf /\
    save_notes_btn (document w') = Some true.
Proof.
  cbv zeta. split; [ reflexivity | ].
  destruct (loadNotes_resolved
              (mkWorld (with_save_notes_btn false
                          (with_notes_text "draft" full_page))
                 (JStr "old") [] []
                 [Resolve (JObj [("notes", JStr two_lines_crlf)])])
              "draft" (JObj [("notes", JStr two_lines_crlf)]) []
              eq_refl eq_refl)
    as (w' & Hrun & _ & Hsaved & Hshown & _).
  destruct (Hshown two_lines_crlf eq_refl) as (Htext & Hbtn & _).
  exists w'. repeat split; assumption.
Defined.

(** X10: after a successful load of string notes [s] the textarea reports
    [s] with every CR LF and CR as LF and the save button is disabled.  An
    input event at which the textarea reports [value] then leaves the save
    button enabled exactly when [value] differs from [s].  So bringing the
    text back to what was loaded disables the button again only when [s]
    holds no carriage return; when [s] holds one, the button is enabled
    after every input event, since a textarea never reports [s] itself. *)
Theorem load_then_edit (w : World) (old s value : string) (btn : bool)
        (d : JsVal) (rest : list Reply) :
  notes_text (document w) = Some old ->
  save_notes_btn (document w) = Some btn ->
  network w = Resolve d :: rest ->
  notes_of d = JStr s ->
  (exists w1,
      loadNotes w = (Normal tt, w1) /\
      notes_text (document w1) = Some (textarea_value s) /\
      lastSavedNotes w1 = JStr s /\
      save_notes_btn (document w1) = Some true) /\
  (exists w',
      (loadNotes ;; edit_notes value) w = (Normal tt, w') /\
      notes_text (document w') = Some value /\
      lastSavedNotes w' = JStr s /\
      save_notes_btn (document w') = Some (String.eqb value s) /\
      (textarea_value value = value -> textarea_value s <> s ->
       save_notes_btn (document w') = Some false) /\
      (value = textarea_value s -> textarea_value s = s ->
       save_notes_btn (document w') = Some true)).
Proof.
  intros Hold Hbtn Hnet Hs.
  destruct w as [ [ qt qa tl nt ab nx sb ] l c0 s0 n ]; simpl in *; subst.
  unfold bind, loadNotes, try_catch, fetchNotes, bind, axios, modify,
    setSaveNotesEnabled, ret, lift, edit_notes, notes_input,
    setSaveNotesEnabled; simpl.
  fold (notes_of d). rewrite Hs. simpl.
  split.
  - eexists. split; [ reflexivity | ]. repeat split.
  - eexists. split; [ reflexivity | ]. simpl.
    rewrite Bool.negb_involutive.
    split; [ reflexivity | ]. split; [ reflexivity | ].
    split; [ reflexivity | ]. split.
    + intros Hvalue Hcr.
      destruct (String.eqb value s) eqn:Heq; [ | reflexivity ].
      apply String.eqb_eq in Heq. subst value. contradiction.
    + intros -> Hlf. rewrite Hlf. now rewrite String.eqb_refl.
Qed.

Lemma load_then_edit_witness :
  let w := mkWorld full_page initial_lastSavedNotes [] []
             [Resolve (JObj [("notes", JStr two_lines_crlf)])] in
  textarea_value two_lines_lf = two_lines_lf /\
  textarea_value two_lines_crlf <> two_lines_crlf /\
  exists w',
    (loadNotes ;; edit_notes two_lines_lf) w = (Normal tt, w') /\
    notes_text (document w') = Some two_lines_lf /\
    lastSavedNotes w' = JStr two_lines_crlf /\
    save_notes_btn (document w') = Some false.
Proof.
  cbv zeta.
  assert (textarea_value two_lines_crlf <> two_lines_crlf) as Hcr
    by (vm_compute; discriminate).
  split; [ reflexivity | split; [ exact Hcr | ] ].
  destruct (load_then_edit
              (mkWorld full_page initial_lastSavedNotes [] []
                 [Resolve (JObj [("notes", JStr two_lines_crlf)])])
              "" two_lines_crlf two_lines_lf true
              (JObj [("notes", JStr two_lines_crlf)]) []
              eq_refl eq_refl eq_refl eq_refl)
    as (_ & w' & Hrun & Htext & Hsaved & _ & Henabled & _).
  exists w'.
  split; [ exact Hrun | split; [ exact Htext | split; [ exact Hsaved | ] ] ].
  apply Henabled; [ reflexivity | exact Hcr ].
Defined.

(** X11: after a successful save whose saved value is the string [s] (the
    echo of the server, which may differ from what was sent), typing
    [value] enables the save button exactly when [value] differs from [s]:
    the dirty flag is measured against the echo, not against the text the
    user saved. *)
Theorem save_then_edit (w : World) (typed s value : string) (btn : bool)
        (d : JsVal) (rest : list Reply) :
  notes_text (document w) = Some typed ->
  save_notes_btn (document w) = Some btn ->
  network w = Resolve d :: rest ->
  get_prop_opt d "notes" ?? JStr typed = JStr s ->
  exists w',
    (save_notes_click ;; edit_notes value) w = (Normal tt, w') /\
    sent w' = sent w ++ [put_request typed] /\
    notes_text (document w') = Some value /\
    lastSavedNotes w' = JStr s /\
    save_notes_btn (document w') = Some (String.eqb value s).
Proof.
  intros Htyped Hbtn Hnet Hs.
  destruct w as [ [ qt qa tl nt ab nx sb ] l c0 s0 n ]; simpl in *; subst.
  unfold bind, save_notes_click, try_catch, putNotes, bind, axios, modify,
    setSaveNotesEnabled, ret, lift, edit_notes, notes_input,
    setSaveNotesEnabled; simpl.
  rewrite Hs. simpl.
  eexists. split; [ reflexivity | ]. simpl.
  rewrite Bool.negb_involutive. repeat split.
Qed.

Lemma save_then_edit_witness :
  let w := mkWorld (with_save_notes_btn false (with_notes_text "Hello " full_page))
             (JStr "") [] []
             [Resolve (JObj [("notes", JStr "Hello")])] in
  exists w',
    (save_notes_click ;; edit_notes "Hello ") w = (Normal tt, w') /\
    lastSavedNotes w' = JStr "Hello" /\
    save_notes_btn (document w') = Some false.
Proof.
  cbv zeta.
  destruct (save_then_edit
              (mkWorld (with_save_notes_btn false
                          (with_notes_text "Hello " full_page))
                 (JStr "") [] []
                 [Resolve (JObj [("notes", JStr "Hello")])])
              "Hello " "Hello" "Hello " false
              (JObj [("notes", JStr "Hello")]) []
              eq_refl eq_refl eq_refl eq_refl)
    as (w' & Hrun & _ & _ & Hsaved & Hbtn).
  exists w'. split; [ exact Hrun | split; [ exact Hsaved | exact Hbtn ] ].
Defined.

(** X12: the dirty test is a strict comparison with [lastSavedNotes], so
    once [lastSavedNotes] holds something that is not a string (a server
    that answers with a number, say) every input event enables the save
    button, whatever the textarea holds. *)
Theorem edit_notes_baseline_not_string (w : World) (value old : string)
        (btn : bool) :
  notes_text (document w) = Some old ->
  save_notes_btn (document w) = Some btn ->
  is_string (lastSavedNotes w) = false ->
  exists w',
    edit_notes value w = (Normal tt, w') /\
    save_notes_btn (document w') = Some false.
Proof.
  intros Hold Hbtn Hbase.
  destruct w as [ [ qt qa tl nt ab nx sb ] l c s n ]; simpl in *; subst.
  unfold edit_notes, notes_input, setSaveNotesEnabled; simpl.
  eexists. split; [ reflexivity | ]. simpl.
  destruct l; try discriminate Hbase; reflexivity.
Qed.

Lemma edit_notes_baseline_not_string_witness :
  let w := mkWorld (with_notes_text "5" full_page) (JNum 5) [] [] [] in
  exists w',
    edit_notes "5" w = (Normal tt, w') /\
    save_notes_btn (document w') = Some false.
Proof.
  cbv zeta.
  exact (edit_notes_baseline_not_string
           (mkWorld (with_notes_text "5" full_page) (JNum 5) [] [] [])
           "5" "5" true eq_refl eq_refl eq_refl).
Defined.

(** X13: the save listener never throws, on any page and whatever the
    server answers; it sends exactly one request, the PUT of the current
    text (of the empty string on a page without the textarea), and it never
    touches the quote elements, the task list, the new-task input or the
    add button. *)
Theorem save_notes_click_never_throws (w w' : World) (c : Completion unit) :
  save_notes_click w = (c, w') ->
  (forall e, c <> Throw e) /\
  sent w' = sent w ++ [put_request (currentText_of w)] /\
  same_but_notes (document w) (document w') /\
  same_elements (document w) (document w').
Proof.
  unfold currentText_of.
  destruct w as [ [ qt qa tl nt ab nx sb ] l c0 s n ]; simpl.
  unfold save_notes_click, try_catch, putNotes, bind, axios, modify,
    setSaveNotesEnabled, ret, lift, throw, console_error, modify; simpl.
  destruct n as [ | [ d | e ] rest ]; simpl.
  - intros H; inversion H; subst; clear H. repeat split; discriminate.
  - destruct nx as [ value | ]; simpl.
    + destruct (value_of (get_prop_opt d "notes" ?? JStr value))
        as [ shown | e ]; simpl.
      * destruct sb; simpl; intros H; inversion H; subst; clear H;
          repeat split; discriminate.
      * intros H; inversion H; subst; clear H. repeat split; discriminate.
    + destruct sb; simpl; intros H; inversion H; subst; clear H;
        repeat split; discriminate.
  - intros H; inversion H; subst; clear H. repeat split; discriminate.
Qed.

Lemma save_notes_click_never_throws_witness :
  let w := start (mkDocument (Some "") (Some "") (Some []) (Some "") (Some false)
                    None (Some false))
             [Resolve JNull] in
  exists c w',
    save_notes_click w = (c, w') /\
    (forall e, c <> Throw e) /\ sent w' = [put_request ""].
Proof.
  cbv zeta.
  destruct (save_notes_click
              (start (mkDocument (Some "") (Some "") (Some []) (Some "")
                        (Some false) None (Some false))
                 [Resolve JNull]))
    as [ c w' ] eqn:Hrun.
  exists c, w'. split; [ reflexivity | ].
  destruct (save_notes_click_never_throws
              (start (mkDocument (Some "") (Some "") (Some []) (Some "")
                        (Some false) None (Some false))
                 [Resolve JNull]) w' c Hrun)
    as (Hc & Hsent & _).
  split; [ exact Hc | exact Hsent ].
Defined.

(* ================================================================== *)
(** ** Quote: what [loadQuote] does on any page *)
(* ================================================================== *)

Ltac quote_leaf :=
  let H := fresh "H" in
  intros H; inversion H; subst; clear H;
  do 3 eexists; (split; [ reflexivity | ]); simpl;
  (split; [ reflexivity | ]); (split; [ reflexivity | ]);
  (split; [ first [ left; reflexivity | right; eexists; reflexivity ] | ]);
  (split; [ intros; first [ reflexivity | discriminate ] | ]);
  (split; [ intros; first [ reflexivity | congruence ] | ]);
  (let Hm := fresh "Hm" in
   intros _ Hm;
   first [ destruct Hm; discriminate
         | repeat split; intros; first [ reflexivity | congruence ] ]).

(** Every way [loadQuote] can end: the world it leaves has the same
    elements, at most new texts in the two quote elements, at most one more
    console entry, the one request recorded and its reply consumed; it is
    still waiting when no reply comes, returns normally on a page with both
    quote elements, and throws out of its [catch] block otherwise. *)
Lemma loadQuote_shape (category : string) (w w' : World) (c : Completion unit) :
  loadQuote category w = (c, w') ->
  exists qt' qa' console',
    w' = mkWorld
           (mkDocument qt' qa' (task_list (document w)) (new_task (document w))
              (add_task_btn (document w)) (notes_text (document w))
              (save_notes_btn (document w)))
           (lastSavedNotes w) console'
           (sent w ++ [quote_request category]) (List.tl (network w)) /\
    is_some qt' = is_some (quote_text (document w)) /\
    is_some qa' = is_some (quote_author (document w)) /\
    (console' = console w \/ exists e, console' = console w ++ [e]) /\
    (network w = [] -> c = Pending) /\
    (network w <> [] ->
     quote_text (document w) <> None -> quote_author (document w) <> None ->
     c = Normal tt) /\
    (network w <> [] ->
     quote_text (document w) = None \/ quote_author (document w) = None ->
     c = Throw (null_set_error "textContent") /\
     console' = console w /\
     (quote_text (document w) <> None -> qt' = Some fallback_message)).
Proof.
  destruct w as [ [ qt qa tl nt ab nx sb ] l c0 s n ]; simpl.
  unfold loadQuote, try_catch, bind, axios; simpl.
  destruct n as [ | [ d | e ] rest ]; simpl.
  - intros H; inversion H; subst; clear H.
    do 3 eexists. split; [ reflexivity | ]. simpl.
    repeat split; try (now left);
      try (intros Hn; contradiction); exfalso; auto.
  - unfold prop. destruct (get_prop d "quote") as [ quote | e ] eqn:Hquote.
    + assert (nullish d = false) as Hd
        by (destruct d; simpl in Hquote; try discriminate Hquote; reflexivity).
      rewrite !get_prop_not_nullish by exact Hd.
      unfold lift, ret, to_string, lift, set_quoteTextEl_textContent,
        set_quoteAuthorEl_textContent, console_error, modify, throw; simpl.
      destruct (ToString (quote ?? get_prop_opt d "text" ?? JStr ""))
        as [ shown | e ]; simpl.
      * destruct qt as [ text0 | ]; simpl.
        -- destruct qa as [ author0 | ]; simpl.
           ++ destruct (textContent_of
                          (get_prop_opt d "author" ?? get_prop_opt d "name"
                           ?? JStr "")) as [ author | e ]; simpl; quote_leaf.
           ++ quote_leaf.
        -- quote_leaf.
      * destruct qt as [ text0 | ], qa as [ author0 | ]; simpl; quote_leaf.
    + unfold lift, throw, set_quoteTextEl_textContent,
        set_quoteAuthorEl_textContent, console_error, modify; simpl.
      destruct qt as [ text0 | ], qa as [ author0 | ]; simpl; quote_leaf.
  - unfold set_quoteTextEl_textContent, set_quoteAuthorEl_textContent,
      console_error, modify; simpl.
    destruct qt as [ text0 | ], qa as [ author0 | ]; simpl; quote_leaf.
Qed.

(** X14: on any page and whatever the server answers, [loadQuote] sends
    exactly one request, the GET of the quotes with the category as query
    parameter, and it changes nothing but the text of the two quote
    elements and the console: the task list, the form, the notes controls
    and [lastSavedNotes] are as before, and no element appears or
    disappears. *)
Theorem loadQuote_frame (category : string) (w w' : World)
        (c : Completion unit) :
  loadQuote category w = (c, w') ->
  sent w' = sent w ++ [quote_request category] /\
  same_but_quote (document w) (document w') /\
  same_elements (document w) (document w') /\
  lastSavedNotes w' = lastSavedNotes w.
Proof.
  intros Hrun.
  destruct (loadQuote_shape category w w' c Hrun)
    as (qt' & qa' & console' & -> & Hqt & Hqa & _).
  simpl. split; [ reflexivity | ].
  split; [ repeat split | ].
  split; [ | reflexivity ].
  unfold same_elements; simpl. repeat split; assumption.
Qed.

Lemma loadQuote_frame_witness :
  let w := mkWorld (with_task_list [buy_milk_row 1] full_page) (JStr "notes")
             [] [] [Resolve (JStr "<!doctype html>")] in
  exists c w',
    loadQuote "funny" w = (c, w') /\
    sent w' = [quote_request "funny"] /\
    task_list (document w') = Some [buy_milk_row 1] /\
    lastSavedNotes w' = JStr "notes".
Proof.
  cbv zeta.
  destruct (loadQuote "funny"
              (mkWorld (with_task_list [buy_milk_row 1] full_page)
                 (JStr "notes") [] [] [Resolve (JStr "<!doctype html>")]))
    as [ c w' ] eqn:Hrun.
  exists c, w'. split; [ reflexivity | ].
  destruct (loadQuote_frame "funny"
              (mkWorld (with_task_list [buy_milk_row 1] full_page)
                 (JStr "notes") [] [] [Resolve (JStr "<!doctype html>")])
              w' c Hrun)
    as (Hsent & (Hlist & _) & _ & Hnotes).
  split; [ exact Hsent | split; [ exact Hlist | exact Hnotes ] ].
Defined.

(** X15: on a page that lacks the quote text or the quote author element,
    once the request has settled (either way) [loadQuote] ends by throwing
    the TypeError of assigning to a property of [null]: the assignment in
    the [catch] block fails as well, so the error that led there is never
    logged.  When only the author element is missing, the quote text is
    left showing the fallback message. *)
Theorem loadQuote_missing_element_throws (category : string) (w : World)
        (r : Reply) (rest : list Reply) :
  quote_text (document w) = None \/ quote_author (document w) = None ->
  network w = r :: rest ->
  exists w',
    loadQuote category w = (Throw (null_set_error "textContent"), w') /\
    console w' = console w /\
    network w' = rest /\
    (quote_text (document w) <> None ->
     quote_text (document w') = Some fallback_message).
Proof.
  intros Hmissing Hnet.
  destruct (loadQuote category w) as [ c w' ] eqn:Hrun.
  destruct (loadQuote_shape category w w' c Hrun)
    as (qt' & qa' & console' & -> & _ & _ & _ & _ & _ & Hthrow).
  destruct Hthrow as (-> & -> & Hfallback);
    [ rewrite Hnet; discriminate | exact Hmissing | ].
  eexists. split; [ reflexivity | ]. simpl.
  rewrite Hnet. repeat split. exact Hfallback.
Qed.

Lemma loadQuote_missing_element_throws_witness :
  let w := start (mkDocument (Some "") None (Some []) (Some "") (Some false)
                    (Some "") (Some true))
             [Resolve (JObj [("quote", JStr "Be kind."); ("author", JStr "Anon")])] in
  quote_author (document w) = None /\
  exists w',
    loadQuote "general" w = (Throw (null_set_error "textContent"), w') /\
    console w' = [] /\
    quote_text (document w') = Some fallback_message.
Proof.
  cbv zeta. split; [ reflexivity | ].
  destruct (loadQuote_missing_element_throws "general"
              (start (mkDocument (Some "") None (Some []) (Some "") (Some false)
                        (Some "") (Some true))
                 [Resolve (JObj [("quote", JStr "Be kind.");
                                 ("author", JStr "Anon")])])
              (Resolve (JObj [("quote", JStr "Be kind."); ("author", JStr "Anon")]))
              [] (or_intror eq_refl) eq_refl)
    as (w' & Hrun & Hlog & _ & Htext).
  exists w'. split; [ exact Hrun | split; [ exact Hlog | ] ].
  apply Htext. discriminate.
Defined.

Lemma category_of_not_empty (select : option string) :
  category_of select <> "".
Proof.
  unfold category_of. destruct select as [ value | ]; [ | discriminate ].
  destruct (String.eqb value "") eqn:Heq; [ discriminate | ].
  intros ->. discriminate Heq.
Qed.

(** X16: the two quote listeners (change of the category select, click on
    the new-quote button) send exactly one request each time they run, and
    its category is the value of the select, or ["general"] when the page
    has no select or its value is empty: a quote is never requested with an
    empty category. *)
Theorem quote_listener_request (select : option string) (l : Listener)
        (w w' : World) (c : Completion unit) :
  l = OnSelectChange \/ l = OnNewQuoteClick ->
  listener_body select l w = (c, w') ->
  exists category,
    sent w' = sent w ++ [quote_request category] /\
    category <> "" /\
    (forall value, select = Some value -> value <> "" -> category = value) /\
    (select = None \/ select = Some "" -> category = "general").
Proof.
  intros Hl Hrun. exists (category_of select).
  assert (loadQuote (category_of select) w = (c, w')) as Hquote
    by (destruct Hl; subst l; exact Hrun).
  destruct (loadQuote_shape _ w w' c Hquote) as (qt' & qa' & console' & -> & _).
  split; [ reflexivity | ].
  split; [ apply category_of_not_empty | ].
  split.
  - intros value -> Hvalue. unfold category_of.
    destruct (String.eqb value "") eqn:Heq; [ | reflexivity ].
    apply String.eqb_eq in Heq. contradiction.
  - intros [ -> | -> ]; reflexivity.
Qed.

Lemma quote_listener_request_witness :
  let w := start full_page [Reject network_error] in
  exists c w',
    listener_body (Some "") OnNewQuoteClick w = (c, w') /\
    sent w' = [quote_request "general"].
Proof.
  cbv zeta.
  destruct (listener_body (Some "") OnNewQuoteClick
              (start full_page [Reject network_error]))
    as [ c w' ] eqn:Hrun.
  exists c, w'. split; [ reflexivity | ].
  destruct (quote_listener_request (Some "") OnNewQuoteClick
              (start full_page [Reject network_error]) w' c
              (or_intror eq_refl) Hrun)
    as (category & Hsent & _ & _ & Hdefault).
  rewrite Hsent. rewrite (Hdefault (or_intror eq_refl)). reflexivity.
Defined.

(* ================================================================== *)
(** ** Start-up *)
(* ================================================================== *)

(** Every way [loadNotes] can end. *)
Lemma loadNotes_effects (w w' : World) (c : Completion unit) :
  loadNotes w = (c, w') ->
  (forall e, c <> Throw e) /\
  same_but_notes (document w) (document w') /\
  same_elements (document w) (document w') /\
  sent w' = sent w ++ (if is_some (notes_text (document w))
                       then [notes_request] else []).
Proof.
  destruct w as [ [ qt qa tl nt ab nx sb ] l c0 s n ]; simpl.
  unfold loadNotes; simpl.
  destruct nx as [ value | ]; simpl.
  2:{ intros H; inversion H; subst; clear H.
      rewrite app_nil_r. repeat split; discriminate. }
  unfold try_catch, fetchNotes, bind, axios, modify, setSaveNotesEnabled,
    ret, lift, throw, console_error, modify; simpl.
  destruct n as [ | [ d | e ] rest ]; simpl.
  - intros H; inversion H; subst; clear H. repeat split; discriminate.
  - destruct (value_of (get_prop_opt d "notes" ?? JStr "")) as [ shown | e ];
      simpl.
    + destruct sb; simpl; intros H; inversion H; subst; clear H;
        repeat split; discriminate.
    + intros H; inversion H; subst; clear H. repeat split; discriminate.
  - intros H; inversion H; subst; clear H. repeat split; discriminate.
Qed.

Lemma wireQuoteEvents_effects (p : Page) :
  wireQuoteEvents p
  = mkPage (world p) (quote_category_select p) (new_quote_btn p)
      (submit_new_task p) (listeners p ++ wired_quote p).
Proof.
  unfold wireQuoteEvents, wired_quote, addEventListener.
  destruct p as [ w sel btn form ls ]; simpl.
  destruct sel, btn; simpl; rewrite <- ?app_assoc, ?app_nil_r; reflexivity.
Qed.

Lemma wire_task_notes_effects (p : Page) :
  wireNotesEvents (wireTaskEvents p)
  = mkPage (world p) (quote_category_select p) (new_quote_btn p)
      (submit_new_task p)
      (listeners p
       ++ (if is_some (add_task_btn (document (world p)))
           then [OnAddTaskClick] else [])
       ++ (if submit_new_task p then [OnFormSubmit] else [])
       ++ (if is_some (notes_text (document (world p)))
           then [OnNotesInput] else [])
       ++ (if is_some (save_notes_btn (document (world p)))
           then [OnSaveNotesClick] else [])).
Proof.
  unfold wireNotesEvents, wireTaskEvents, addEventListener.
  destruct p as [ [ [ qt qa tl nt ab nx sb ] l c s n ] sel btn form ls ]; simpl.
  destruct ab, form, nx, sb; simpl;
    rewrite <- ?app_assoc, ?app_nil_r; reflexivity.
Qed.

(** X17: when [init] runs to its end, it has attached one listener to each
    of the six controls that are on the page, in the order select, new
    quote button, add button, form, textarea, save button, and it has sent
    the GET of the quote (category: the value of the select, ["general"]
    when that is empty or the select is missing), then the GET of the
    tasks, then the GET of the notes (the last only on a page with the
    textarea). *)
Theorem init_wires_then_loads (p p' : Page) :
  init p = (Normal tt, p') ->
  listeners p' = listeners p ++ wired p /\
  sent (world p')
  = sent (world p)
    ++ [quote_request (category_of (quote_category_select p)); tasks_request]
    ++ (if is_some (notes_text (document (world p)))
        then [notes_request] else []).
Proof.
  unfold init. rewrite wireQuoteEvents_effects. simpl.
  destruct (loadQuote (category_of (quote_category_select p)) (world p))
    as [ c1 w1 ] eqn:Hquote.
  destruct (loadQuote_shape _ _ _ _ Hquote)
    as (qt' & qa' & console' & -> & _).
  destruct c1 as [ [] | e | ]; [ | discriminate | discriminate ].
  rewrite wire_task_notes_effects. simpl.
  match goal with
  | |- context [ loadTasks ?w ] =>
      destruct (loadTasks w) as [ c2 w2 ] eqn:Htasks
  end.
  apply loadTasks_frame in Htasks. simpl in Htasks.
  destruct Htasks as (_ & (_ & _ & _ & _ & Hnx & _) & _ & Hsent2 & _).
  destruct c2 as [ [] | e | ]; [ | discriminate | discriminate ].
  destruct (loadNotes w2) as [ c3 w3 ] eqn:Hnotes.
  apply loadNotes_effects in Hnotes.
  destruct Hnotes as (_ & _ & _ & Hsent3).
  intros H; inversion H; subst; clear H. simpl.
  split.
  - unfold wired, wired_quote. now rewrite <- !app_assoc.
  - rewrite Hsent3, Hsent2, Hnx. now rewrite <- !app_assoc.
Qed.

Lemma init_wires_then_loads_witness :
  let p := mkPage (start full_page
                     [Resolve (JObj [("quote", JStr "Be kind.")]);
                      Resolve (JArr [buy_milk 0]);
                      Resolve (JObj [("notes", JStr "hello")])])
             (Some "funny") true true [] in
  exists p',
    init p = (Normal tt, p') /\
    listeners p' = [OnSelectChange; OnNewQuoteClick; OnAddTaskClick;
                    OnFormSubmit; OnNotesInput; OnSaveNotesClick] /\
    sent (world p') = [quote_request "funny"; tasks_request; notes_request].
Proof.
  cbv zeta. eexists. split; [ cbv; reflexivity | ].
  apply (init_wires_then_loads
           (mkPage (start full_page
                      [Resolve (JObj [("quote", JStr "Be kind.")]);
                       Resolve (JArr [buy_milk 0]);
                       Resolve (JObj [("notes", JStr "hello")])])
              (Some "funny") true true [])).
  cbv. reflexivity.
Defined.

(** X18: on a page that has both quote elements, [init] never throws,
    whatever the three requests come to. *)
Theorem init_never_throws (p p' : Page) (c : Completion unit) :
  quote_text (document (world p)) <> None ->
  quote_author (document (world p)) <> None ->
  init p = (c, p') ->
  forall e, c <> Throw e.
Proof.
  intros Hqt Hqa. unfold init. rewrite wireQuoteEvents_effects. simpl.
  destruct (loadQuote (category_of (quote_category_select p)) (world p))
    as [ c1 w1 ] eqn:Hquote.
  destruct (loadQuote_shape _ _ _ _ Hquote)
    as (qt' & qa' & console' & -> & _ & _ & _ & Hpending & Hnormal & _).
  destruct (network (world p)) as [ | r rest ] eqn:Hnet.
  - rewrite (Hpending eq_refl). intros H; inversion H. discriminate.
  - rewrite (Hnormal ltac:(discriminate) Hqt Hqa).
    rewrite wire_task_notes_effects. simpl.
    match goal with
    | |- context [ loadTasks ?w ] =>
        destruct (loadTasks w) as [ c2 w2 ] eqn:Htasks
    end.
    apply loadTasks_frame in Htasks. destruct Htasks as (Hc2 & _).
    destruct c2 as [ [] | e | ].
    + destruct (loadNotes w2) as [ c3 w3 ] eqn:Hnotes.
      apply loadNotes_effects in Hnotes. destruct Hnotes as (Hc3 & _).
      intros H; inversion H; subst. exact Hc3.
    + intros _. exfalso. exact (Hc2 e eq_refl).
    + intros H; inversion H. discriminate.
Qed.

Lemma init_never_throws_witness :
  let p := mkPage (start full_page [Resolve JNull; Resolve JNull; Resolve JNull])
             None false false [] in
  quote_text (document (world p)) <> None /\
  quote_author (document (world p)) <> None /\
  exists c p', init p = (c, p') /\ forall e, c <> Throw e.
Proof.
  cbv zeta.
  split; [ discriminate | split; [ discriminate | ] ].
  destruct (init (mkPage (start full_page
                            [Resolve JNull; Resolve JNull; Resolve JNull])
                    None false false []))
    as [ c p' ] eqn:Hrun.
  exists c, p'. split; [ reflexivity | ].
  apply (init_never_throws
           (mkPage (start full_page [Resolve JNull; Resolve JNull; Resolve JNull])
              None false false [])
           p' c); [ discriminate | discriminate | exact Hrun ].
Defined.

(** X19: on a page that lacks a quote element, once the quote request has
    settled [init] ends by throwing out of [loadQuote]: only the quote
    listeners have been attached, the add button, the form, the textarea
    and the save button get no listener, and neither the tasks nor the
    notes are ever requested. *)
Theorem init_stops_without_quote_element (p : Page) (r : Reply)
        (rest : list Reply) :
  quote_text (document (world p)) = None \/
  quote_author (document (world p)) = None ->
  network (world p) = r :: rest ->
  exists p',
    init p = (Throw (null_set_error "textContent"), p') /\
    listeners p' = listeners p ++ wired_quote p /\
    sent (world p')
    = sent (world p) ++ [quote_request (category_of (quote_category_select p))] /\
    network (world p') = rest /\
    console (world p') = console (world p) /\
    task_list (document (world p')) = task_list (document (world p)) /\
    notes_text (document (world p')) = notes_text (document (world p)) /\
    lastSavedNotes (world p') = lastSavedNotes (world p).
Proof.
  intros Hmissing Hnet. unfold init. rewrite wireQuoteEvents_effects. simpl.
  destruct (loadQuote (category_of (quote_category_select p)) (world p))
    as [ c1 w1 ] eqn:Hquote.
  destruct (loadQuote_shape _ _ _ _ Hquote)
    as (qt' & qa' & console' & -> & _ & _ & _ & _ & _ & Hthrow).
  destruct Hthrow as (-> & -> & _);
    [ rewrite Hnet; discriminate | exact Hmissing | ].
  eexists. split; [ reflexivity | ]. simpl.
  rewrite Hnet. repeat split.
Qed.

Lemma init_stops_without_quote_element_witness :
  let p := mkPage (start (mkDocument None (Some "") (Some []) (Some "")
                            (Some false) (Some "") (Some true))
                     [Resolve (JObj [("quote", JStr "Be kind.")]);
                      Resolve (JArr [buy_milk 0])])
             (Some "funny") true true [] in
  exists p',
    init p = (Throw (null_set_error "textContent"), p') /\
    listeners p' = [OnSelectChange; OnNewQuoteClick] /\
    sent (world p') = [quote_request "funny"].
Proof.
  cbv zeta.
  destruct (init_stops_without_quote_element
              (mkPage (start (mkDocument None (Some "") (Some []) (Some "")
                                (Some false) (Some "") (Some true))
                         [Resolve (JObj [("quote", JStr "Be kind.")]);
                          Resolve (JArr [buy_milk 0])])
                 (Some "funny") true true [])
              (Resolve (JObj [("quote", JStr "Be kind.")]))
              [Resolve (JArr [buy_milk 0])]
              (or_introl eq_refl) eq_refl)
    as (p' & Hrun & Hls & Hsent & _).
  exists p'. split; [ exact Hrun | split; [ exact Hls | exact Hsent ] ].
Defined.

(** X20: [loadNotes] never throws, whatever the server answers, and it
    never touches the quote elements, the task list or the add form.  On a
    page without the textarea it returns at once: nothing is requested and
    nothing changes, so [lastSavedNotes] keeps the value it had. *)
Theorem loadNotes_never_throws (w w' : World) (c : Completion unit) :
  loadNotes w = (c, w') ->
  (forall e, c <> Throw e) /\
  same_but_notes (document w) (document w') /\
  (notes_text (document w) = None -> c = Normal tt /\ w' = w) /\
  (notes_text (document w) <> None -> sent w' = sent w ++ [notes_request]).
Proof.
  intros Hrun.
  destruct (loadNotes_effects w w' c Hrun) as (Hc & Hsame & _ & Hsent).
  split; [ exact Hc | split; [ exact Hsame | split ] ].
  - intros Hnone. revert Hrun. unfold loadNotes. rewrite Hnone.
    intros H; inversion H. split; reflexivity.
  - intros Hsome. rewrite Hsent.
    destruct (notes_text (document w)); [ reflexivity | contradiction ].
Qed.

Lemma loadNotes_never_throws_witness :
  let w := mkWorld full_page (JStr "kept") [] []
             [Resolve (JObj [("notes", JObj [("toString", JNull)])])] in
  exists c w',
    loadNotes w = (c, w') /\
    (forall e, c <> Throw e) /\ sent w' = [notes_request].
Proof.
  cbv zeta.
  destruct (loadNotes
              (mkWorld full_page (JStr "kept") [] []
                 [Resolve (JObj [("notes", JObj [("toString", JNull)])])]))
    as [ c w' ] eqn:Hrun.
  exists c, w'. split; [ reflexivity | ].
  destruct (loadNotes_never_throws
              (mkWorld full_page (JStr "kept") [] []
                 [Resolve (JObj [("notes", JObj [("toString", JNull)])])])
              w' c Hrun)
    as (Hc & _ & _ & Hsent).
  split; [ exact Hc | ].
  apply Hsent. discriminate.
Defined.
